(** * Sea route service: the position-aware route composition layer

    A shallow embedding of [Docker/sea_route_service.py]: the geodesy
    helpers, the merge point selector, the two route builders and the course
    filter of the [/route] handler, with the properties of the specification
    stated over them.

    Numbers are IEEE binary64 values ([PrimFloat.float]), as Python's
    [float].  A coordinate is the two-element list [[lng, lat]] of the
    source, kept as a pair.  The libraries the service calls (geopy's
    geodesic distance, the [math] module, the [searoute] pathfinder) are
    parameters of the development, gathered in the record [Libs]. *)

From Stdlib Require Import ZArith Floats Lia.
From stdpp Require Import base option list strings gmap.

Set Warnings "-inexact-float".

(** ** Data model *)

(** A coordinate [[lng, lat]]: [p.1] is [p[0]], [p.2] is [p[1]]. *)
Definition Coord : Type := float * float.

(** Python's [p == q] on two coordinates whose components are not NaN:
    element-wise IEEE equality (so [0.0 == -0.0]). *)
Definition coord_eqb (p q : Coord) : bool :=
  (p.1 =? q.1)%float && (p.2 =? q.2)%float.

(** Python's [p != q]. *)
Definition coord_neqb (p q : Coord) : bool := negb (coord_eqb p q).

(** The range of the data model: longitude in [-180, 180], latitude in
    [-90, 90].  A coordinate in range has no NaN component. *)
Definition valid_coord (p : Coord) : bool :=
  (-180 <=? p.1)%float && (p.1 <=? 180)%float &&
  (-90 <=? p.2)%float && (p.2 <=? 90)%float.

(** JSON values stored in a feature's [properties] dictionary. *)
Inductive JValue : Type :=
| JNum (x : float)
| JInt (n : nat)
| JStr (s : string)
| JNull.

(** [{"type": "LineString", "coordinates": [...]}] *)
Record Geometry : Type := {
  geometry_type : string;
  coordinates : list Coord
}.

(** [{"type": "Feature", "geometry": {...}, "properties": {...}}] *)
Record Feature : Type := {
  feature_type : string;
  geometry : Geometry;
  properties : gmap string JValue
}.

(** ** Exceptions *)

Inductive exn : Type :=
| ReferenceRouteError   (* Exception("Could not generate reference route: ...") *)
| SearouteError         (* whatever the pathfinder raises *)
| IndexError
| ValueError
| HTTPException (status_code : nat).

Inductive result (A : Type) : Type :=
| Ok (a : A)
| Raise (e : exn).

Arguments Ok {A} a.
Arguments Raise {A} e.

#[global] Instance result_ret : MRet result := fun A a => Ok a.

#[global] Instance result_bind : MBind result := fun A B k m =>
  match m with
  | Ok a => k a
  | Raise e => Raise e
  end.

(** ** The libraries the service calls *)

Record Libs : Type := {
  (** [geodesic((lat1, lon1), (lat2, lon2)).kilometers] *)
  geodesic_kilometers : float * float -> float * float -> float;
  (** [geodesic((lat1, lon1), (lat2, lon2)).meters] *)
  geodesic_meters : float * float -> float * float -> float;
  math_radians : float -> float;
  math_degrees : float -> float;
  math_sin : float -> float;
  math_cos : float -> float;
  math_atan2 : float -> float -> float;
  (** [x % y] on floats *)
  float_mod : float -> float -> float;
  (** [sr.searoute(origin, destination, units=units)] *)
  searoute : Coord -> Coord -> string -> result Feature
}.

(** ** Comparison keys of IEEE values (used to reason on [<] and [==]) *)

(** [SFcompare] is the lexicographic order on these triples, and undefined
    on NaN. *)
Definition float_key (x : spec_float) : option (Z * Z * Z) :=
  match x with
  | S754_nan => None
  | S754_zero _ => Some (0, 0, 0)%Z
  | S754_infinity true => Some (-2, 0, 0)%Z
  | S754_infinity false => Some (2, 0, 0)%Z
  | S754_finite true m e => Some (-1, - e, - Z.pos m)%Z
  | S754_finite false m e => Some (1, e, Z.pos m)%Z
  end.

Definition lex3 (a b : Z * Z * Z) : comparison :=
  let '(a1, a2, a3) := a in
  let '(b1, b2, b3) := b in
  match (a1 ?= b1)%Z with
  | Eq => match (a2 ?= b2)%Z with
          | Eq => (a3 ?= b3)%Z
          | c => c
          end
  | c => c
  end.

(** ** Loops *)

(** [for i, x in enumerate(items, start=i): st = body(st, i, x)] *)
Fixpoint for_enumerate {S : Type} (body : S -> nat -> Coord -> S)
    (items : list Coord) (i : nat) (st : S) : S :=
  match items with
  | [] => st
  | x :: rest => for_enumerate body rest (Datatypes.S i) (body st i x)
  end.

(** The indices of [range(start, stop, step)], for [step > 0]. *)
Definition py_range (start stop step : nat) : list nat :=
  (fun k => start + k * step) <$>
    seq 0 (if start <? stop then (stop - start - 1) `div` step + 1 else 0).

Section Service.

Context (L : Libs).

(** ** Geodesy (lines 11-36) *)

Definition _bearing (p1 p2 : Coord) : float :=
  let lon1 := math_radians L p1.1 in
  let lat1 := math_radians L p1.2 in
  let lon2 := math_radians L p2.1 in
  let lat2 := math_radians L p2.2 in
  let d_lon := (lon2 - lon1)%float in
  let x := (math_sin L d_lon * math_cos L lat2)%float in
  let y := (math_cos L lat1 * math_sin L lat2
            - math_sin L lat1 * math_cos L lat2 * math_cos L d_lon)%float in
  let bearing := math_degrees L (math_atan2 L x y) in
  float_mod L (bearing + 360)%float 360%float.

Definition _ang_diff (a b : float) : float :=
  let d := float_mod L (abs (a - b)) 360%float in
  if (d <=? 180)%float then d else (360 - d)%float.

Definition calculate_distance (p1 p2 : Coord) (units : string) : float :=
  let dist_km := geodesic_kilometers L (p1.2, p1.1) (p2.2, p2.1) in
  if String.eqb units "naut" then (dist_km * 0.539957)%float
  else if String.eqb units "km" then dist_km
  else (dist_km * 0.621371)%float.

(** ** Merge point selector (lines 67-119) *)

(** One iteration of the first loop; the state is [(min_dist, closest_idx)]. *)
Definition closest_step (ship_position : Coord) (st : float * nat)
    (i : nat) (route_point : Coord) : float * nat :=
  let dist_km :=
    geodesic_kilometers L (ship_position.2, ship_position.1)
      (route_point.2, route_point.1) in
  if (dist_km <? st.1)%float then (dist_km, i) else st.

Definition closest_index (ship_position : Coord)
    (reference_route : list Coord) : nat :=
  (for_enumerate (closest_step ship_position) reference_route 0
     (infinity, 0)).2.

(** The score of a candidate: [dist_km + (bearing_diff * 2)], where
    [route_end] is [reference_route[-1]]. *)
Definition merge_score (ship_position route_end route_point : Coord) : float :=
  let dist_km :=
    geodesic_kilometers L (ship_position.2, ship_position.1)
      (route_point.2, route_point.1) in
  let bearing_to_point := _bearing ship_position route_point in
  let bearing_to_dest := _bearing ship_position route_end in
  let bearing_diff := _ang_diff bearing_to_point bearing_to_dest in
  (dist_km + bearing_diff * 2)%float.

(** The test [dist_km > max_deviation_km] that skips a candidate. *)
Definition too_far (ship_position : Coord) (max_deviation_km : float)
    (route_point : Coord) : bool :=
  (max_deviation_km <?
     geodesic_kilometers L (ship_position.2, ship_position.1)
       (route_point.2, route_point.1))%float.

(** One iteration of the second loop.  The state is [(best_score, best)]
    with [best] the pair [(best_merge_idx, best_merge_point)], both [None]
    or both set. *)
Definition merge_step (ship_position route_end : Coord)
    (max_deviation_km : float) (st : float * option (nat * Coord))
    (i : nat) (route_point : Coord) : float * option (nat * Coord) :=
  if too_far ship_position max_deviation_km route_point then st
  else
    let score := merge_score ship_position route_end route_point in
    if (score <? st.1)%float then (score, Some (i, route_point)) else st.

(** [min(closest_idx + len(reference_route) // 4, len(reference_route) - 1)] *)
Definition forward_index (closest_idx len : nat) : nat :=
  (closest_idx + len `div` 4) `min` (len - 1).

Definition find_optimal_merge_point (ship_position : Coord)
    (reference_route : list Coord) (max_deviation_km : float)
  : result (nat * Coord) :=
  let closest_idx := closest_index ship_position reference_route in
  match last reference_route with
  | None =>
      (* empty route: no iteration, then reference_route[min(0, -1)] *)
      Raise IndexError
  | Some route_end =>
      let st :=
        for_enumerate (merge_step ship_position route_end max_deviation_km)
          (drop closest_idx reference_route) closest_idx (infinity, None) in
      match st.2 with
      | Some best => Ok best
      | None =>
          let forward_idx :=
            forward_index closest_idx (length reference_route) in
          match reference_route !! forward_idx with
          | Some p => Ok (forward_idx, p)
          | None => Raise IndexError
          end
      end
  end.

(** ** Shared steps of the builders *)

(** [if coords[-1] != destination: coords.append(destination)] *)
Definition ensure_destination (coords : list Coord) (destination : Coord)
  : result (list Coord) :=
  match last coords with
  | None => Raise IndexError
  | Some p =>
      Ok (if coord_neqb p destination then coords ++ [destination] else coords)
  end.

(** [for i in range(len(coords) - 1):
       total_distance += calculate_distance(coords[i], coords[i+1], units)] *)
Fixpoint add_distances (coords : list Coord) (units : string)
    (total_distance : float) : float :=
  match coords with
  | a :: (b :: _) as rest =>
      add_distances rest units
        (total_distance + calculate_distance a b units)%float
  | _ => total_distance
  end.

Definition total_distance (coords : list Coord) (units : string) : float :=
  add_distances coords units 0%float.

Definition duration_hours (total : float) (units : string) : float :=
  if String.eqb units "naut" then (total / 24.0)%float
  else (total / 44.448)%float.

Definition line_string (coords : list Coord) : Geometry :=
  {| geometry_type := "LineString"; coordinates := coords |}.

(** ** Route composer (lines 121-177) *)

(** The coordinates before the destination check: the ship, the merge point
    when it is more than 100 m away, the rest of the reference route. *)
Definition optimized_base (ship_position : Coord)
    (reference_route : list Coord) (merge_idx : nat) (merge_point : Coord)
  : list Coord :=
  let merge_dist :=
    geodesic_meters L (ship_position.2, ship_position.1)
      (merge_point.2, merge_point.1) in
  [ship_position]
    ++ (if (100 <? merge_dist)%float then [merge_point] else [])
    ++ drop (merge_idx + 1) reference_route.

(** Lines 126-132: the reference route, from the caller or the pathfinder. *)
Definition obtain_reference (ship_position destination : Coord)
    (reference_route : option (list Coord)) (units : string)
  : result (list Coord) :=
  match reference_route with
  | Some r => Ok r
  | None =>
      match searoute L ship_position destination units with
      | Ok ref_feature => Ok (coordinates (geometry ref_feature))
      | Raise _ => Raise ReferenceRouteError
      end
  end.

Definition create_optimized_route_from_position (ship_position destination : Coord)
    (reference_route : option (list Coord)) (units : string) : result Feature :=
  reference_route ←
    obtain_reference ship_position destination reference_route units;
  '(merge_idx, merge_point) ←
    find_optimal_merge_point ship_position reference_route 200%float;
  (* [merge_idx] is an index here: the [merge_idx is None] branch is dead *)
  route_coords ←
    ensure_destination
      (optimized_base ship_position reference_route merge_idx merge_point)
      destination;
  let total := total_distance route_coords units in
  Ok {| feature_type := "Feature";
        geometry := line_string route_coords;
        properties :=
          <["length" := JNum total]>
          (<["units" := JStr units]>
          (<["duration_hours" := JNum (duration_hours total units)]>
          (<["route_type" := JStr "optimized_from_position"]>
          (<["merge_point_index" := JInt merge_idx]> ∅)))) |}.

(** ** Guided route builder (lines 179-268) *)

(** The degeneracy fallback of lines 193-203. *)
Definition retry_reference (ship_position destination : Coord)
    (units : string) (reference_coords : list Coord) : list Coord :=
  if length reference_coords <=? 2 then
    let offset_origin := (ship_position.1 + 0.1, ship_position.2 + 0.1)%float in
    let offset_dest := (destination.1 - 0.1, destination.2 - 0.1)%float in
    match searoute L offset_origin offset_dest units with
    | Ok alt_feature =>
        if 2 <? length (coordinates (geometry alt_feature))
        then coordinates (geometry alt_feature)
        else reference_coords
    | Raise _ => reference_coords   (* except: pass *)
    end
  else reference_coords.

(** One iteration of the loop of lines 218-224; the state is
    [(best_start_idx, best_bearing_diff)]. *)
Definition best_start_step (ship_position : Coord)
    (ship_to_dest_bearing : float) (st : nat * float) (i : nat)
    (ref_point : Coord) : nat * float :=
  let bearing_to_ref_point := _bearing ship_position ref_point in
  let bearing_diff := _ang_diff bearing_to_ref_point ship_to_dest_bearing in
  if (bearing_diff <? st.2)%float then (i, bearing_diff) else st.

(** The waypoints taken from a reference route of more than 2 points
    (lines 213-235). *)
Definition guided_waypoints (ship_position destination : Coord)
    (reference_coords : list Coord) (waypoint_spacing : nat)
  : result (list Coord) :=
  let n := length reference_coords in
  let ship_to_dest_bearing := _bearing ship_position destination in
  let best_start_idx :=
    (for_enumerate (best_start_step ship_position ship_to_dest_bearing)
       (take (n `min` 5 - 1) (drop 1 reference_coords)) 1
       (1, 180%float)).1 in
  if waypoint_spacing =? 0 then
    Raise ValueError   (* range() arg 3 must not be zero *)
  else
    let sampled :=
      omap (fun i => reference_coords !! i)
        (py_range best_start_idx n waypoint_spacing) in
    let last_added_idx :=
      best_start_idx
      + ((n - best_start_idx - 1) `div` waypoint_spacing) * waypoint_spacing in
    if (waypoint_spacing <? n) && (last_added_idx <? n - 2) then
      match reference_coords !! (n - 2) with
      | Some p => Ok (sampled ++ [p])
      | None => Raise IndexError
      end
    else Ok sampled.

(** One iteration of the loop of lines 243-245. *)
Definition dedup_step (filtered_coords : list Coord) (c : Coord) : list Coord :=
  match last filtered_coords with
  | Some p => if coord_neqb c p then filtered_coords ++ [c] else filtered_coords
  | None => filtered_coords
  end.

(** Lines 242-245: remove any duplicate consecutive points. *)
Definition remove_consecutive_duplicates (new_coords : list Coord)
  : result (list Coord) :=
  match new_coords with
  | [] => Raise IndexError
  | c0 :: rest => Ok (fold_left dedup_step rest [c0])
  end.

Definition create_guided_route (ship_position destination : Coord)
    (units : string) (waypoint_spacing : nat) : result Feature :=
  reference_coords ←
    match searoute L ship_position destination units with
    | Ok ref_feature => Ok (coordinates (geometry ref_feature))
    | Raise _ => Raise ReferenceRouteError
    end;
  let reference_coords :=
    retry_reference ship_position destination units reference_coords in
  waypoints ←
    (if 2 <? length reference_coords
     then guided_waypoints ship_position destination reference_coords
            waypoint_spacing
     else Ok []);
  new_coords ← ensure_destination (ship_position :: waypoints) destination;
  filtered_coords ← remove_consecutive_duplicates new_coords;
  let total := total_distance filtered_coords units in
  Ok {| feature_type := "Feature";
        geometry := line_string filtered_coords;
        properties :=
          <["length" := JNum total]>
          (<["units" := JStr units]>
          (<["duration_hours" := JNum (duration_hours total units)]>
          (<["route_type" := JStr "guided"]>
          (<["reference_points_used" := JInt (length reference_coords)]>
          (<["waypoints_created" := JInt (length filtered_coords)]> ∅))))) |}.

(** ** Course filter and the [/route] handler (lines 270-320) *)

(** The [while] loop of lines 297-301 from index [i_keep], [rest] being
    [coords[i_keep:]]: the first index whose bearing from [coords[0]] is
    within [heading_tol] of [course], or [len(coords)]. *)
Fixpoint course_scan (c0 : Coord) (course heading_tol : float)
    (rest : list Coord) (i_keep : nat) : nat :=
  match rest with
  | [] => i_keep
  | p :: rest' =>
      let brg := _bearing c0 p in
      if (_ang_diff brg course <=? heading_tol)%float then i_keep
      else course_scan c0 course heading_tol rest' (S i_keep)
  end.

(** Lines 296-306: the filtered coordinates of a route of more than one
    point. *)
Definition course_filter_coords (coords : list Coord) (destination : Coord)
    (course heading_tol : float) : result (list Coord) :=
  match coords with
  | [] => Raise IndexError
  | c0 :: _ =>
      let i_keep := course_scan c0 course heading_tol (drop 1 coords) 1 in
      ensure_destination ([c0] ++ drop i_keep coords) destination
  end.

(** Lines 294-315. *)
Definition apply_course_filter (feature : Feature) (destination : Coord)
    (units : string) (course : option float) (heading_tol : float)
  : result Feature :=
  let coords := coordinates (geometry feature) in
  match course with
  | Some course =>
      if 1 <? length coords then
        filtered_coords ←
          course_filter_coords coords destination course heading_tol;
        let total := total_distance filtered_coords units in
        Ok {| feature_type := feature_type feature;
              geometry :=
                {| geometry_type := geometry_type (geometry feature);
                   coordinates := filtered_coords |};
              properties :=
                <["duration_hours" := JNum (duration_hours total units)]>
                (<["length" := JNum total]> (properties feature)) |}
      else Ok feature
  | None => Ok feature
  end.

Definition get_route (start_lat start_lng end_lat end_lng : float)
    (units : string) (course : option float) (heading_tol : float)
    (route_type : string) : result Feature :=
  let ship_position : Coord := (start_lng, start_lat) in
  let destination : Coord := (end_lng, end_lat) in
  let computed :=
    feature ←
      (if String.eqb route_type "optimized" then
         create_optimized_route_from_position ship_position destination
           None units
       else if String.eqb route_type "guided" then
         create_guided_route ship_position destination units 3
       else searoute L ship_position destination units);
    apply_course_filter feature destination units course heading_tol in
  match computed with
  | Ok feature => Ok feature
  | Raise _ => Raise (HTTPException 500)
  end.

End Service.

(** ** Properties of routes *)

(** No two consecutive coordinates are equal (by Python's [==]). *)
Definition no_consecutive_duplicates (coords : list Coord) : Prop :=
  forall i a b,
    coords !! i = Some a -> coords !! (S i) = Some b -> coord_eqb a b = false.

(** The first coordinate is [start]; the last one compares equal to
    [destination]. *)
Definition starts_and_ends (coords : list Coord) (start destination : Coord)
  : Prop :=
  head coords = Some start /\
  exists p, last coords = Some p /\ coord_eqb p destination = true.

(** The coordinate sequence of a returned feature. *)
Definition route_coordinates (r : result Feature) : option (list Coord) :=
  match r with
  | Ok f => Some (coordinates (geometry f))
  | Raise _ => None
  end.

(** ** An instance of the libraries for the worked examples

    The examples below run along the equator.  There the spherical bearing
    formula only evaluates [sin] and [cos] at 0 and at the longitude
    difference, and [atan2] on the axes; the WGS-84 geodesic between two
    points of the equator is the equatorial arc.  [equator_libs] gives the
    library functions on these arguments (off the equator it is only an
    approximation); the pathfinder is a parameter. *)

Module Equator.

(** [math.radians], [math.degrees]: multiplication by pi/180, 180/pi. *)
Definition radians (x : float) : float := (x * 0.017453292519943295)%float.

Definition degrees (x : float) : float := (x * 57.29577951308232)%float.

(** Taylor polynomials: exact at 0, of the sign of [sin] for |x| < 2.4. *)
Definition sin (x : float) : float :=
  (x - x * x * x / 6 + x * x * x * x * x / 120)%float.

Definition cos (x : float) : float :=
  (1 - x * x / 2 + x * x * x * x / 24)%float.

(** [math.atan2] on the axes; NaN marks the arguments off the axes. *)
Definition atan2 (y x : float) : float :=
  if (x =? 0)%float then
    if (0 <? y)%float then 1.5707963267948966%float
    else if (y <? 0)%float then (-1.5707963267948966)%float
    else 0%float
  else if (y =? 0)%float then
    if (0 <? x)%float then 0%float else 3.141592653589793%float
  else nan.

(** [x % y] for [0 <= x < 2 * y]. *)
Definition fmod (x y : float) : float :=
  if (x <? y)%float then x else (x - y)%float.

(** Arc of the equator (radius 6378.137 km) spanned by the longitudes,
    plus the same for the latitudes off the equator. *)
Definition kilometers (p q : float * float) : float :=
  (6378.137 * radians (abs (p.2 - q.2) + abs (p.1 - q.1)))%float.

Definition equator_libs (sr : Coord -> Coord -> string -> result Feature)
  : Libs :=
  {| geodesic_kilometers := kilometers;
     geodesic_meters := fun p q => (kilometers p q * 1000)%float;
     math_radians := radians;
     math_degrees := degrees;
     math_sin := sin;
     math_cos := cos;
     math_atan2 := atan2;
     float_mod := fmod;
     searoute := sr |}.

(** A pathfinder that answers the route [route] whatever the end points. *)
Definition fixed_route (route : list Coord) (origin destination : Coord)
    (units : string) : result Feature :=
  Ok {| feature_type := "Feature";
        geometry := line_string route;
        properties := <["units" := JStr units]> ∅ |}.

(** A pathfinder that finds no sea path: the 2-point straight line. *)
Definition straight_line (origin destination : Coord) (units : string)
  : result Feature :=
  fixed_route [origin; destination] origin destination units.

End Equator.

(** ** The inputs of the worked examples *)

Module Examples.

Import Equator.

(** A caller-supplied reference route that visits (2, 0) twice in a row. *)
Definition repeated_route : list Coord :=
  [(1, 0); (2, 0); (2, 0); (3, 0)]%float.

(** An eastbound route from (0, 0) to (2, 0) found by the pathfinder. *)
Definition eastbound_route : list Coord :=
  [(0, 0); (0.5, 0); (1, 0); (1.5, 0); (2, 0)]%float.

Definition eastbound_libs : Libs := equator_libs (fixed_route eastbound_route).

(** The guided route built on [eastbound_route]. *)
Definition eastbound_guided : list Coord := [(0, 0); (0.5, 0); (2, 0)]%float.

(** A feature that carries [eastbound_guided], with a property of its own. *)
Definition eastbound_feature : Feature :=
  {| feature_type := "Feature";
     geometry := line_string eastbound_guided;
     properties := <["route_type" := JStr "guided"]> ∅ |}.

(** A reference route that goes west, then east: its first point is the
    closest to a ship at (0, 0), its last point lies to the east. *)
Definition west_east_route : list Coord := [(-1, 0); (1.5, 0)]%float.

(** A reference route whose nearest point is more than 500 km east of a
    ship at (0, 0). *)
Definition far_route : list Coord := [(5, 0); (6, 0); (7, 0); (8, 0)]%float.

(** The pathfinder finds no sea path. *)
Definition no_path_libs : Libs := equator_libs straight_line.

(** The pathfinder's route for a ship at (0, 0) bound for (2, 0): it starts
    at a node of the network, (0.5, 0), not at the ship. *)
Definition network_route : list Coord :=
  [(0.5, 0); (1, 0); (1.5, 0); (2, 0)]%float.

Definition network_libs : Libs := equator_libs (fixed_route network_route).

(** A pathfinder route from (0, 0) to (2, 0) that comes back through its
    first point. *)
Definition returning_route : list Coord :=
  [(0, 0); (1, 0); (0, 0); (2, 0)]%float.

Definition returning_libs : Libs := equator_libs (fixed_route returning_route).

End Examples.

(** ** The score as the specification words it *)

(** [distance(start, p) + 2 * angularDifference(bearing(start, p),
    bearing(start, destination))], with the destination of the caller. *)
Definition spec_merge_score (L : Libs) (start destination p : Coord) : float :=
  (geodesic_kilometers L (start.2, start.1) (p.2, p.1)
   + 2 * _ang_diff L (_bearing L start p) (_bearing L start destination))%float.

(** ** The comparison handler (lines 322-370) *)

Section Compare.

Context (L : Libs).

(** The [direct] entry: the straight line from the start to the
    destination. *)
Definition direct_feature (ship_position destination : Coord)
    (units : string) : Feature :=
  let direct_distance := calculate_distance L ship_position destination units in
  {| feature_type := "Feature";
     geometry := line_string [ship_position; destination];
     properties :=
       <["length" := JNum direct_distance]>
       (<["units" := JStr units]>
       (<["duration_hours" := JNum (duration_hours direct_distance units)]>
       (<["route_type" := JStr "direct"]> ∅))) |}.

Definition compare_routes (start_lat start_lng end_lat end_lng : float)
    (units : string) : result (gmap string Feature) :=
  let ship_position : Coord := (start_lng, start_lat) in
  let destination : Coord := (end_lng, end_lat) in
  let computed :=
    original ← searoute L ship_position destination units;
    optimized ←
      create_optimized_route_from_position L ship_position destination None
        units;
    guided ← create_guided_route L ship_position destination units 3;
    Ok (<["direct" := direct_feature ship_position destination units]>
        (<["guided" := guided]>
        (<["optimized" := optimized]>
        (<["original" := original]> ∅)))) in
  match computed with
  | Ok results => Ok results
  | Raise _ => Raise (HTTPException 500)
  end.

End Compare.

(** ** Point projection (lines 38-65)

    The shapely calls are parameters: a [LineString] is identified with its
    coordinates, and a call that raises answers [Raise]. *)

Record Shapely : Type := {
  (** [LineString(route_coords).project(Point(point))] *)
  line_project : list Coord -> Coord -> result float;
  (** [LineString(route_coords).interpolate(d)], as [(x, y)] *)
  line_interpolate : list Coord -> float -> result Coord;
  (** [LineString([a, b]).length] *)
  segment_length : Coord -> Coord -> float
}.

Section Projection.

Context (L : Libs) (Sh : Shapely).

(** The [for] loop of lines 53-61 from segment [i], [coords] being
    [route_coords[i:]]: the segment where the loop returns and the fraction
    along it, or [None] when the loop runs to its end. *)
Fixpoint segment_scan (proj_dist : float) (coords : list Coord) (i : nat)
    (accumulated : float) : option (nat * float) :=
  match coords with
  | a :: (b :: _) as rest =>
      let seg_length := segment_length Sh a b in
      if (proj_dist <=? accumulated + seg_length)%float then
        Some (i, if (0 <? seg_length)%float
                 then ((proj_dist - accumulated) / seg_length)%float
                 else 0%float)
      else segment_scan proj_dist rest (S i) (accumulated + seg_length)%float
  | _ => None
  end.

(** The result is [(index, fraction, projected point, distance in km)]; the
    index is an integer, [len(route_coords) - 2] being negative on a route of
    fewer than 2 points. *)
Definition project_point_onto_route (point : Coord)
    (route_coords : list Coord) : result (Z * float * Coord * float) :=
  proj_dist ← line_project Sh route_coords point;
  proj_coords ← line_interpolate Sh route_coords proj_dist;
  let distance_km :=
    geodesic_kilometers L (point.2, point.1) (proj_coords.2, proj_coords.1) in
  match segment_scan proj_dist route_coords 0 0%float with
  | Some (i, frac) => Ok (Z.of_nat i, frac, proj_coords, distance_km)
  | None =>
      Ok ((Z.of_nat (length route_coords) - 2)%Z, 1.0%float, proj_coords,
          distance_km)
  end.

End Projection.

(** ** The single-strategy service ([Docker/sea_route_service (Copy).py]) *)

Module Legacy.

(** What the handler answers: the feature with its media type, or an
    [HTTPException]; the detail of a 500 is built from the exception of the
    pathfinder, kept here as its cause. *)
Inductive response : Type :=
| JSONResponse (content : Feature) (media_type : string)
| BadRequest (detail : string)
| ServerError (cause : exn).

(** The message of the [ValueError] raised, [None] when the check passes
    (lines 16-22). *)
Definition _validate_lat (lat : float) : option string :=
  if negb ((-90.0 <=? lat)%float && (lat <=? 90.0)%float)
  then Some "Latitude must be between -90 and 90 degrees."
  else None.

Definition _validate_lng (lng : float) : option string :=
  if negb ((-180.0 <=? lng)%float && (lng <=? 180.0)%float)
  then Some "Longitude must be between -180 and 180 degrees."
  else None.

(** Lines 43-49: the four checks in order; the first that raises decides. *)
Definition validate (start_lat start_lng end_lat end_lng : float)
  : option string :=
  match _validate_lat start_lat with
  | Some e => Some e
  | None =>
      match _validate_lat end_lat with
      | Some e => Some e
      | None =>
          match _validate_lng start_lng with
          | Some e => Some e
          | None => _validate_lng end_lng
          end
      end
  end.

Definition get_route (L : Libs) (start_lat start_lng end_lat end_lng : float)
    (units : string) : response :=
  match validate start_lat start_lng end_lat end_lng with
  | Some e => BadRequest e
  | None =>
      let origin : Coord := (start_lng, start_lat) in
      let destination : Coord := (end_lng, end_lat) in
      match searoute L origin destination units with
      | Ok feature => JSONResponse feature "application/geo+json"
      | Raise exc => ServerError exc
      end
  end.

End Legacy.

(** ** More inputs for the worked examples *)

Module Scenarios.

Import Equator.

(** A route from (0, 0) that first goes west, then east to (2, 0). *)
Definition backtracking_route : list Coord :=
  [(0, 0); (-1, 0); (1, 0); (2, 0)]%float.

Definition backtracking_feature : Feature :=
  {| feature_type := "Feature";
     geometry := line_string backtracking_route;
     properties := <["route_type" := JStr "original"]> ∅ |}.

(** A reference route whose second point is the closest to a ship at
    (0, 0), and whose last point lies to the east. *)
Definition detour_route : list Coord := [(1.5, 0); (-1, 0); (1, 0)]%float.

(** Shapely on a route that runs east along the x axis from its first
    point: the projection of a point is its abscissa measured from the first
    point, kept between 0 and the length of the route, and the length of a
    segment is the Euclidean distance between its ends. *)
Definition axis_shapely : Shapely :=
  {| line_project := fun route p =>
       match route, last route with
       | a :: _, Some b =>
           let d := (p.1 - a.1)%float in
           let len := (b.1 - a.1)%float in
           Ok (if (d <? 0)%float then 0%float
               else if (len <? d)%float then len else d)
       | _, _ => Raise ValueError
       end;
     line_interpolate := fun route d =>
       match route with
       | a :: _ => Ok ((a.1 + d)%float, a.2)
       | [] => Raise ValueError
       end;
     segment_length := fun a b =>
       sqrt ((b.1 - a.1) * (b.1 - a.1) + (b.2 - a.2) * (b.2 - a.2))%float |}.

(** A pathfinder that raises, as when a point is on land or the network is
    down. *)
Definition unavailable (origin destination : Coord) (units : string)
  : result Feature :=
  Raise SearouteError.

Definition unavailable_libs : Libs := equator_libs unavailable.

(** A pathfinder that answers a feature without coordinates. *)
Definition empty_libs : Libs := equator_libs (fixed_route []).

End Scenarios.

(** * Proofs *)

(** ** IEEE comparisons *)

Lemma SFcompare_key x y :
  SFcompare x y =
    match float_key x, float_key y with
    | Some a, Some b => Some (lex3 a b)
    | _, _ => None
    end.
Proof.
  destruct x as [sx|sx| |sx mx ex], y as [sy|sy| |sy my ey];
    try destruct sx; try destruct sy; try reflexivity; simpl.
  - rewrite Z.compare_opp. destruct (Z.compare_spec ex ey) as [->|H|H].
    + rewrite Z.compare_refl. reflexivity.
    + now rewrite (proj2 (Z.compare_gt_iff ey ex)) by lia.
    + now rewrite (proj2 (Z.compare_lt_iff ey ex)) by lia.
Qed.

Lemma lex3_eq a b : lex3 a b = Eq <-> a = b.
Proof.
  destruct a as [[a1 a2] a3], b as [[b1 b2] b3]; unfold lex3.
  destruct (Z.compare_spec a1 b1), (Z.compare_spec a2 b2),
    (Z.compare_spec a3 b3); split; intros E; try discriminate;
    try (inversion E; lia); subst; reflexivity.
Qed.

Lemma lex3_lt_trans a b c : lex3 a b = Lt -> lex3 b c = Lt -> lex3 a c = Lt.
Proof.
  destruct a as [[a1 a2] a3], b as [[b1 b2] b3], c as [[c1 c2] c3];
    unfold lex3.
  destruct (Z.compare_spec a1 b1), (Z.compare_spec a2 b2),
    (Z.compare_spec a3 b3); try discriminate; intros _;
    destruct (Z.compare_spec b1 c1), (Z.compare_spec b2 c2),
      (Z.compare_spec b3 c3); try discriminate; intros _;
    destruct (Z.compare_spec a1 c1), (Z.compare_spec a2 c2),
      (Z.compare_spec a3 c3); try reflexivity; lia.
Qed.

Lemma lex3_refl a : lex3 a a = Eq.
Proof. now apply lex3_eq. Qed.

(** Python's [x == y] on floats: an equivalence on the values that are not NaN. *)
Lemma float_eqb_key x y :
  (x =? y)%float = true <->
  exists a, float_key (Prim2SF x) = Some a /\ float_key (Prim2SF y) = Some a.
Proof.
  rewrite FloatAxioms.eqb_spec. unfold SFeqb. rewrite SFcompare_key.
  destruct (float_key (Prim2SF x)) as [a|], (float_key (Prim2SF y)) as [b|].
  - destruct (lex3 a b) eqn:E.
    + apply lex3_eq in E as ->. split; eauto.
    + split; [discriminate|]. intros (c & [= ->] & [= ->]).
      rewrite lex3_refl in E. discriminate.
    + split; [discriminate|]. intros (c & [= ->] & [= ->]).
      rewrite lex3_refl in E. discriminate.
  - split; [discriminate|]. intros (c & _ & [=]).
  - split; [discriminate|]. intros (c & [=] & _).
  - split; [discriminate|]. intros (c & [=] & _).
Qed.

Lemma float_eqb_sym x y : (x =? y)%float = true -> (y =? x)%float = true.
Proof. rewrite !float_eqb_key. intros (a & ? & ?). eauto. Qed.

Lemma float_eqb_trans x y z : (x =? y)%float = true -> (y =? z)%float = true -> (x =? z)%float = true.
Proof.
  rewrite !float_eqb_key. intros (a & Hx & Hy) (b & Hy' & Hz).
  exists a. split; [done|]. congruence.
Qed.

Lemma float_eqb_comm x y : (x =? y)%float = (y =? x)%float.
Proof.
  destruct (x =? y)%float eqn:E1, (y =? x)%float eqn:E2; try reflexivity.
  - apply float_eqb_sym in E1. congruence.
  - apply float_eqb_sym in E2. congruence.
Qed.

(** A float that compares below a bound is not NaN, hence equal to itself. *)
Lemma float_leb_eqb_refl x b : (x <=? b)%float = true -> (x =? x)%float = true.
Proof.
  rewrite FloatAxioms.leb_spec, float_eqb_key. unfold SFleb. rewrite SFcompare_key.
  destruct (float_key (Prim2SF x)) as [a|]; [eauto|discriminate].
Qed.

Lemma float_ltb_key x y :
  (x <? y)%float = true <->
  exists a b, float_key (Prim2SF x) = Some a /\ float_key (Prim2SF y) = Some b /\
              lex3 a b = Lt.
Proof.
  rewrite FloatAxioms.ltb_spec. unfold SFltb. rewrite SFcompare_key.
  destruct (float_key (Prim2SF x)) as [a|], (float_key (Prim2SF y)) as [b|].
  - destruct (lex3 a b) eqn:E.
    + split; [discriminate|]. intros (c & d & [= ->] & [= ->] & ?). congruence.
    + split; eauto.
    + split; [discriminate|]. intros (c & d & [= ->] & [= ->] & ?). congruence.
  - split; [discriminate|]. intros (c & d & _ & [=] & _).
  - split; [discriminate|]. intros (c & d & [=] & _).
  - split; [discriminate|]. intros (c & d & [=] & _).
Qed.

Lemma float_ltb_trans x y z : (x <? y)%float = true -> (y <? z)%float = true -> (x <? z)%float = true.
Proof.
  rewrite !float_ltb_key. intros (a & b & Ha & Hb & Hab) (b' & c & Hb' & Hc & Hbc).
  exists a, c. repeat split; try done.
  assert (b' = b) as -> by congruence. eapply lex3_lt_trans; eauto.
Qed.

Lemma float_ltb_irrefl x : (x <? x)%float = false.
Proof.
  destruct (x <? x)%float eqn:E; [|done].
  apply float_ltb_key in E as (a & b & Ha & Hb & Hab).
  assert (b = a) as -> by congruence. rewrite lex3_refl in Hab. discriminate.
Qed.

(** ** Coordinates *)

Lemma coord_eqb_comm p q : coord_eqb p q = coord_eqb q p.
Proof.
  unfold coord_eqb. now rewrite (float_eqb_comm p.1), (float_eqb_comm p.2).
Qed.

Lemma coord_eqb_trans p q r :
  coord_eqb p q = true -> coord_eqb q r = true -> coord_eqb p r = true.
Proof.
  unfold coord_eqb. rewrite !andb_true_iff. intros [H1 H2] [H3 H4].
  split; eapply float_eqb_trans; eauto.
Qed.

Lemma valid_coord_eqb_refl p : valid_coord p = true -> coord_eqb p p = true.
Proof.
  unfold valid_coord, coord_eqb. rewrite !andb_true_iff.
  intros [[[_ H1] _] H2]. split; eapply float_leb_eqb_refl; eauto.
Qed.

(** ** Sequences without consecutive duplicates *)

Lemma no_dups_nil : no_consecutive_duplicates [].
Proof. intros i a b H. now rewrite lookup_nil in H. Qed.

Lemma no_dups_singleton c : no_consecutive_duplicates [c].
Proof. intros i a b _ H. now rewrite lookup_cons, lookup_nil in H. Qed.

Lemma no_dups_cons a b l :
  coord_eqb a b = false -> no_consecutive_duplicates (b :: l) ->
  no_consecutive_duplicates (a :: b :: l).
Proof.
  intros Hab Hl [|i] x y Hx Hy; simpl in *.
  - congruence.
  - eapply Hl; eauto.
Qed.

Lemma no_dups_tail a l :
  no_consecutive_duplicates (a :: l) -> no_consecutive_duplicates l.
Proof. intros H i x y Hx Hy. apply (H (S i)); assumption. Qed.

Lemma no_dups_drop n l :
  no_consecutive_duplicates l -> no_consecutive_duplicates (drop n l).
Proof.
  intros H i x y. rewrite !lookup_drop.
  replace (n + S i) with (S (n + i)) by lia. apply H.
Qed.

Lemma no_dups_snoc l c :
  no_consecutive_duplicates l ->
  (forall p, last l = Some p -> coord_eqb p c = false) ->
  no_consecutive_duplicates (l ++ [c]).
Proof.
  intros Hl Hlast i a b Ha Hb.
  destruct (decide (S i < length l)) as [Hlt|Hge].
  - rewrite lookup_app_l in Ha, Hb by lia. eauto.
  - assert (S i = length l) as Hi.
    { apply lookup_lt_Some in Hb. rewrite length_app in Hb. simpl in Hb. lia. }
    rewrite lookup_app_l in Ha by lia.
    rewrite lookup_app_r, Hi, Nat.sub_diag in Hb by lia.
    injection Hb as <-. apply Hlast.
    rewrite last_lookup. now replace (pred (length l)) with i by lia.
Qed.

(** ** The destination check *)

Lemma ensure_destination_spec coords destination r :
  ensure_destination coords destination = Ok r ->
  exists p, last coords = Some p /\
    ((coord_eqb p destination = true /\ r = coords) \/
     (coord_eqb p destination = false /\ r = coords ++ [destination])).
Proof.
  unfold ensure_destination, coord_neqb.
  destruct (last coords) as [p|]; [|discriminate].
  intros [= <-]. exists p. split; [done|].
  destruct (coord_eqb p destination); simpl; auto.
Qed.

Lemma ensure_destination_total c coords destination :
  exists r, ensure_destination (c :: coords) destination = Ok r.
Proof.
  unfold ensure_destination.
  destruct (last (c :: coords)) as [p|] eqn:E; [eauto|].
  apply last_None in E. discriminate.
Qed.

Lemma ensure_destination_no_dups coords destination r :
  ensure_destination coords destination = Ok r ->
  no_consecutive_duplicates coords -> no_consecutive_duplicates r.
Proof.
  intros H Hc. apply ensure_destination_spec in H as (p & Hp & [[_ ->]|[Hne ->]]).
  - assumption.
  - apply no_dups_snoc; [assumption|]. intros q Hq. congruence.
Qed.

Lemma ensure_destination_ends c coords destination r :
  valid_coord destination = true ->
  ensure_destination (c :: coords) destination = Ok r ->
  starts_and_ends r c destination.
Proof.
  intros Hv H. apply ensure_destination_spec in H as (p & Hp & [[He ->]|[Hne ->]]).
  - split; [reflexivity|]. eauto.
  - split; [reflexivity|]. exists destination. split.
    + apply last_snoc.
    + now apply valid_coord_eqb_refl.
Qed.

(** ** Removing consecutive duplicates *)

Lemma dedup_step_head filtered c x :
  head filtered = Some x -> head (dedup_step filtered c) = Some x.
Proof.
  unfold dedup_step. intros H.
  destruct (last filtered) as [p|]; [|assumption].
  destruct (coord_neqb c p); [|assumption].
  destruct filtered; [discriminate|assumption].
Qed.

Lemma dedup_step_no_dups filtered c :
  no_consecutive_duplicates filtered ->
  no_consecutive_duplicates (dedup_step filtered c).
Proof.
  intros H. unfold dedup_step, coord_neqb.
  destruct (last filtered) as [p|] eqn:E; [|assumption].
  destruct (coord_eqb c p) eqn:Ec; simpl; [assumption|].
  apply no_dups_snoc; [assumption|]. intros q Hq.
  assert (q = p) as -> by congruence. now rewrite coord_eqb_comm.
Qed.

(** The last point kept compares equal to the last point read. *)
Lemma dedup_step_last filtered c p :
  last filtered = Some p ->
  exists q, last (dedup_step filtered c) = Some q /\
    (q = c \/ coord_eqb c q = true).
Proof.
  intros Hp. unfold dedup_step, coord_neqb. rewrite Hp.
  destruct (coord_eqb c p) eqn:Ec; simpl.
  - eauto.
  - exists c. split; [apply last_snoc|auto].
Qed.

Lemma dedup_fold_head rest filtered x :
  head filtered = Some x -> head (fold_left dedup_step rest filtered) = Some x.
Proof.
  revert filtered. induction rest as [|c rest IH]; intros filtered H; simpl.
  - assumption.
  - apply IH. now apply dedup_step_head.
Qed.

Lemma dedup_fold_no_dups rest filtered :
  no_consecutive_duplicates filtered ->
  no_consecutive_duplicates (fold_left dedup_step rest filtered).
Proof.
  revert filtered. induction rest as [|c rest IH]; intros filtered H; simpl.
  - assumption.
  - apply IH. now apply dedup_step_no_dups.
Qed.

Lemma remove_consecutive_duplicates_spec new_coords filtered :
  remove_consecutive_duplicates new_coords = Ok filtered ->
  no_consecutive_duplicates filtered /\
  head filtered = head new_coords /\
  exists p q, last new_coords = Some p /\ last filtered = Some q /\
    (q = p \/ coord_eqb p q = true).
Proof.
  unfold remove_consecutive_duplicates.
  destruct new_coords as [|c0 rest]; [discriminate|]. intros [= <-].
  split; [apply dedup_fold_no_dups, no_dups_singleton|].
  split; [now apply dedup_fold_head|].
  destruct (decide (rest = [])) as [->|Hne].
  - exists c0, c0. simpl. auto.
  - destruct (exists_last Hne) as (rest' & c & ->).
    rewrite fold_left_app. simpl.
    destruct (last (fold_left dedup_step rest' [c0])) as [p|] eqn:Ep.
    + destruct (dedup_step_last _ c _ Ep) as (q & Hq & Hcq).
      exists c, q. rewrite app_comm_cons, last_snoc. auto.
    + apply last_None in Ep.
      pose proof (dedup_fold_head rest' [c0] c0 eq_refl) as Hh.
      rewrite Ep in Hh. discriminate.
Qed.

(** ** What a returned feature was built from *)

Section Builders.

Context (L : Libs).

Lemma bind_ok {A B} (m : result A) (k : A -> result B) b :
  (m ≫= k) = Ok b -> exists a, m = Ok a /\ k a = Ok b.
Proof. destruct m as [a|e]; [eauto|discriminate]. Qed.

Lemma create_guided_route_inv ship destination units spacing f :
  create_guided_route L ship destination units spacing = Ok f ->
  exists waypoints new_coords,
    ensure_destination (ship :: waypoints) destination = Ok new_coords /\
    remove_consecutive_duplicates new_coords = Ok (coordinates (geometry f)).
Proof.
  unfold create_guided_route. intros H.
  apply bind_ok in H as (reference_coords & _ & H).
  apply bind_ok in H as (waypoints & _ & H).
  apply bind_ok in H as (new_coords & Hnew & H).
  apply bind_ok in H as (filtered & Hf & H).
  injection H as <-. simpl. eauto.
Qed.

Lemma create_optimized_route_inv ship destination reference units f :
  create_optimized_route_from_position L ship destination reference units
    = Ok f ->
  exists reference_route merge_idx merge_point,
    obtain_reference L ship destination reference units = Ok reference_route /\
    find_optimal_merge_point L ship reference_route 200 =
      Ok (merge_idx, merge_point) /\
    ensure_destination
      (optimized_base L ship reference_route merge_idx merge_point)
      destination = Ok (coordinates (geometry f)).
Proof.
  unfold create_optimized_route_from_position. intros H.
  apply bind_ok in H as (reference_route & Href & H).
  apply bind_ok in H as ([merge_idx merge_point] & Hfind & H).
  apply bind_ok in H as (route_coords & Hroute & H).
  injection H as <-. simpl. eauto 6.
Qed.

End Builders.

(** ** The course filter *)

Section CourseFilter.

Context (L : Libs).

Lemma course_scan_bounds c0 course heading_tol rest i :
  i <= course_scan L c0 course heading_tol rest i <= i + length rest.
Proof.
  revert i. induction rest as [|p rest IH]; intros i; simpl; [lia|].
  destruct (_ <=? _)%float; [lia|]. specialize (IH (S i)). lia.
Qed.

(** When no waypoint passes the heading test, the scan runs off the end. *)
Lemma course_scan_none c0 course heading_tol rest i :
  (forall p, p ∈ rest ->
     (_ang_diff L (_bearing L c0 p) course <=? heading_tol)%float = false) ->
  course_scan L c0 course heading_tol rest i = i + length rest.
Proof.
  revert i. induction rest as [|p rest IH]; intros i H; simpl; [lia|].
  rewrite H by (left). rewrite IH; [lia|].
  intros q Hq. apply H. now right.
Qed.

Lemma apply_course_filter_inv feature destination units course heading_tol f' :
  apply_course_filter L feature destination units course heading_tol = Ok f' ->
  f' = feature \/
  exists c filtered_coords,
    course = Some c /\
    1 < length (coordinates (geometry feature)) /\
    course_filter_coords L (coordinates (geometry feature)) destination c
      heading_tol = Ok filtered_coords /\
    f' = {| feature_type := feature_type feature;
            geometry :=
              {| geometry_type := geometry_type (geometry feature);
                 coordinates := filtered_coords |};
            properties :=
              <["duration_hours" :=
                  JNum (duration_hours
                          (total_distance L filtered_coords units) units)]>
              (<["length" := JNum (total_distance L filtered_coords units)]>
                 (properties feature)) |}.
Proof.
  unfold apply_course_filter. destruct course as [c|]; [|intros [= <-]; auto].
  destruct (1 <? _) eqn:Hlen; [|intros [= <-]; auto].
  intros H. apply bind_ok in H as (filtered_coords & Hf & H).
  injection H as <-. right. exists c, filtered_coords.
  apply Nat.ltb_lt in Hlen. auto.
Qed.

Lemma course_filter_coords_ends c0 rest destination course heading_tol r :
  valid_coord destination = true ->
  course_filter_coords L (c0 :: rest) destination course heading_tol = Ok r ->
  starts_and_ends r c0 destination.
Proof.
  unfold course_filter_coords. intros Hv H.
  eapply ensure_destination_ends; eauto.
Qed.

Lemma course_filter_coords_no_dups c0 rest destination course heading_tol r :
  course_filter_coords L (c0 :: rest) destination course heading_tol = Ok r ->
  no_consecutive_duplicates (c0 :: rest) ->
  (forall p,
     1 < course_scan L c0 course heading_tol rest 1 ->
     (c0 :: rest) !! course_scan L c0 course heading_tol rest 1 = Some p ->
     coord_eqb c0 p = false) ->
  no_consecutive_duplicates r.
Proof.
  unfold course_filter_coords. simpl drop at 1. rewrite drop_0.
  set (i_keep := course_scan L c0 course heading_tol rest 1).
  intros H Hnd Hjoin. eapply ensure_destination_no_dups; [exact H|].
  pose proof (course_scan_bounds c0 course heading_tol rest 1) as Hb.
  fold i_keep in Hb.
  destruct i_keep as [|[|k]] eqn:Ek; [lia|exact Hnd|].
  simpl. destruct (drop (S k) rest) as [|p l] eqn:Ed.
  - apply no_dups_singleton.
  - apply no_dups_cons.
    + apply Hjoin; [lia|]. simpl.
      rewrite <- (Nat.add_0_r (S k)), <- lookup_drop, Ed. reflexivity.
    + rewrite <- Ed. apply (no_dups_drop (S (S k)) (c0 :: rest)). exact Hnd.
Qed.

End CourseFilter.

(** ** Loops that keep the first strict minimum

    The two loops of [find_optimal_merge_point] have the same shape: an item
    that is not skipped replaces the state when its value is strictly below
    the best value so far. *)

Section ArgMin.

Context {S : Type} (val : S -> float) (f : Coord -> float)
  (skip : Coord -> bool) (pick : nat -> Coord -> S)
  (body : S -> nat -> Coord -> S).

Hypothesis val_pick : forall i x, val (pick i x) = f x.

Hypothesis body_spec : forall st i x,
  body st i x =
    if skip x then st
    else if (f x <? val st)%float then pick i x else st.

Lemma argmin_origin items i st :
  for_enumerate body items i st = st \/
  exists k x,
    items !! k = Some x /\ skip x = false /\
    for_enumerate body items i st = pick (i + k) x.
Proof.
  revert i st. induction items as [|x items IH]; intros i st; simpl; [auto|].
  destruct (IH (Datatypes.S i) (body st i x)) as [->|(k & y & Hk & Hs & ->)].
  - rewrite body_spec. destruct (skip x) eqn:Hx; [auto|].
    destruct (f x <? val st)%float; [|auto].
    right. exists 0, x. now rewrite Nat.add_0_r.
  - right. exists (Datatypes.S k), y.
    now replace (i + Datatypes.S k) with (Datatypes.S i + k) by lia.
Qed.

Lemma argmin_decreases items i st :
  val (for_enumerate body items i st) = val st \/
  (val (for_enumerate body items i st) <? val st)%float = true.
Proof.
  revert i st. induction items as [|x items IH]; intros i st; simpl; [auto|].
  assert (val (body st i x) = val st \/
          (val (body st i x) <? val st)%float = true) as Hstep.
  { rewrite body_spec. destruct (skip x); [auto|].
    destruct (f x <? val st)%float eqn:E; [|auto]. rewrite val_pick. auto. }
  destruct (IH (Datatypes.S i) (body st i x)) as [->|Hlt]; [exact Hstep|].
  destruct Hstep as [<-|Hstep]; [auto|].
  right. eapply float_ltb_trans; eauto.
Qed.

Lemma argmin_minimal items i st k x :
  items !! k = Some x -> skip x = false ->
  (f x <? val (for_enumerate body items i st))%float = false.
Proof.
  revert i st k. induction items as [|y items IH]; intros i st k Hk Hs.
  - now rewrite lookup_nil in Hk.
  - simpl. destruct k as [|k]; [|eapply IH; eauto].
    injection Hk as ->.
    destruct (f x <? val (for_enumerate body items (Datatypes.S i) (body st i x)))%float
      eqn:E; [|reflexivity].
    exfalso.
    assert ((f x <? val (body st i x))%float = true) as Hx.
    { destruct (argmin_decreases items (Datatypes.S i) (body st i x)) as [Heq|Hlt];
        [now rewrite Heq in E|eapply float_ltb_trans; eauto]. }
    rewrite body_spec, Hs in Hx.
    destruct (f x <? val st)%float eqn:E'; [|congruence].
    rewrite val_pick, float_ltb_irrefl in Hx. discriminate.
Qed.

End ArgMin.

(** ** Infinity is the largest value *)

Lemma float_key_range s a1 a2 a3 :
  float_key s = Some (a1, a2, a3) ->
  (a1 = 2 /\ a2 = 0 /\ a3 = 0)%Z \/ (a1 < 2)%Z.
Proof.
  destruct s as [b|[|]| |[|] m e]; simpl; intros [= <- <- <-]; lia.
Qed.

Lemma float_ltb_infinity x y :
  (x <? y)%float = true -> (x <? infinity)%float = true.
Proof.
  rewrite !float_ltb_key. intros ([[a1 a2] a3] & [[b1 b2] b3] & Ha & Hb & Hab).
  exists (a1, a2, a3), (2, 0, 0)%Z. repeat split; [assumption|].
  apply float_key_range in Ha, Hb. unfold lex3 in *.
  destruct Ha as [(-> & -> & ->)|Ha].
  - exfalso. destruct Hb as [(-> & -> & ->)|Hb]; [discriminate|].
    destruct (Z.compare_spec 2 b1); try discriminate; lia.
  - now rewrite (proj2 (Z.compare_lt_iff a1 2)).
Qed.

(** ** The merge point selector *)

Section Selector.

Context (L : Libs) (ship : Coord).

Let dist (p : Coord) : float :=
  geodesic_kilometers L (ship.2, ship.1) (p.2, p.1).

Lemma closest_step_spec st i x :
  closest_step L ship st i x =
    if false then st else if (dist x <? st.1)%float then (dist x, i) else st.
Proof. reflexivity. Qed.

Lemma closest_index_lt reference_route :
  reference_route <> [] ->
  closest_index L ship reference_route < length reference_route.
Proof.
  intros Hne. unfold closest_index.
  destruct (argmin_origin fst dist (fun _ => false) (fun i x => (dist x, i))
              (closest_step L ship) closest_step_spec reference_route 0
              (infinity, 0)) as [->|(k & x & Hk & _ & ->)]; simpl.
  - destruct reference_route; [done|simpl; lia].
  - now apply lookup_lt_Some in Hk.
Qed.

(** No point of the route is strictly closer to the ship than the point at
    [closest_index]. *)
Lemma closest_index_minimal reference_route j p q :
  reference_route !! j = Some p ->
  reference_route !! closest_index L ship reference_route = Some q ->
  (dist p <? dist q)%float = false.
Proof.
  intros Hp Hq. unfold closest_index in Hq.
  pose proof (argmin_minimal fst dist (fun _ => false) (fun i x => (dist x, i))
                (closest_step L ship) (fun _ _ => eq_refl) closest_step_spec
                reference_route 0 (infinity, 0) j p Hp eq_refl) as Hmin.
  destruct (argmin_origin fst dist (fun _ => false) (fun i x => (dist x, i))
              (closest_step L ship) closest_step_spec reference_route 0
              (infinity, 0)) as [E|(k & x & Hk & _ & E)];
    rewrite E in Hq, Hmin; simpl in Hq, Hmin.
  - destruct (dist p <? dist q)%float eqn:Elt; [|reflexivity].
    apply float_ltb_infinity in Elt. congruence.
  - assert (x = q) as -> by congruence. exact Hmin.
Qed.

Context (route_end : Coord) (max_deviation_km : float).

Lemma merge_step_spec st i x :
  merge_step L ship route_end max_deviation_km st i x =
    if too_far L ship max_deviation_km x then st
    else if (merge_score L ship route_end x <? st.1)%float
         then (merge_score L ship route_end x, Some (i, x)) else st.
Proof. reflexivity. Qed.

(** The outcome of the selector on a route that is not empty: either the
    first candidate of minimal score among those within the bound, from
    [closest_index] on, or the forward index when the scan kept nothing. *)
Lemma find_optimal_merge_point_cases reference_route :
  last reference_route = Some route_end ->
  (exists k p,
     reference_route !! (closest_index L ship reference_route + k) = Some p /\
     too_far L ship max_deviation_km p = false /\
     find_optimal_merge_point L ship reference_route max_deviation_km =
       Ok (closest_index L ship reference_route + k, p) /\
     forall j q,
       closest_index L ship reference_route <= j ->
       reference_route !! j = Some q ->
       too_far L ship max_deviation_km q = false ->
       (merge_score L ship route_end q <? merge_score L ship route_end p)%float
         = false)
  \/
  (exists p,
     reference_route !!
       forward_index (closest_index L ship reference_route)
         (length reference_route) = Some p /\
     find_optimal_merge_point L ship reference_route max_deviation_km =
       Ok (forward_index (closest_index L ship reference_route)
             (length reference_route), p) /\
     forall j q,
       closest_index L ship reference_route <= j ->
       reference_route !! j = Some q ->
       too_far L ship max_deviation_km q = false ->
       (merge_score L ship route_end q <? infinity)%float = false).
Proof.
  intros Hlast. unfold find_optimal_merge_point. rewrite Hlast.
  set (c := closest_index L ship reference_route).
  set (pick := fun (i : nat) (x : Coord) =>
                 (merge_score L ship route_end x, Some (i, x))).
  assert (reference_route <> []) as Hne by (intros ->; discriminate).
  pose proof (closest_index_lt reference_route Hne) as Hc. fold c in Hc.
  pose proof (argmin_minimal fst (merge_score L ship route_end)
                (too_far L ship max_deviation_km) pick
                (merge_step L ship route_end max_deviation_km)
                (fun _ _ => eq_refl) merge_step_spec
                (drop c reference_route) c (infinity, None)) as Hmin.
  destruct (argmin_origin fst (merge_score L ship route_end)
              (too_far L ship max_deviation_km) pick
              (merge_step L ship route_end max_deviation_km) merge_step_spec
              (drop c reference_route) c (infinity, None))
    as [E|(k & x & Hk & Hx & E)]; rewrite E in *; simpl in *.
  - right.
    assert (forward_index c (length reference_route) < length reference_route)
      as Hf by (unfold forward_index; lia).
    apply lookup_lt_is_Some in Hf as [p Hp]. exists p. rewrite Hp.
    split; [reflexivity|]. split; [reflexivity|]. intros j q Hj Hq Hfar.
    apply (Hmin (j - c) q); [|assumption].
    rewrite lookup_drop. now replace (c + (j - c)) with j by lia.
  - left. rewrite lookup_drop in Hk. exists k, x.
    split; [assumption|]. split; [assumption|]. split; [reflexivity|].
    intros j q Hj Hq Hfar.
    apply (Hmin (j - c) q); [|assumption].
    rewrite lookup_drop. now replace (c + (j - c)) with j by lia.
Qed.

End Selector.

(** * The claims *)

Section Claims.

Import Equator Examples.

(** ** C1: deduplication *)

(** The loop under the comment "Remove any duplicate consecutive points"
    (lines 241-245) belongs to [create_guided_route]: the route it returns
    never has two equal consecutive coordinates. *)
Lemma create_guided_route_deduplicated (L : Libs) (ship destination : Coord)
    (units : string) (spacing : nat) (f : Feature) :
  create_guided_route L ship destination units spacing = Ok f ->
  no_consecutive_duplicates (coordinates (geometry f)).
Proof.
  intros H.
  apply create_guided_route_inv in H as (waypoints & new_coords & _ & H).
  now apply remove_consecutive_duplicates_spec in H as [H _].
Qed.

(** C1, a defect of the code: [create_optimized_route_from_position] lacks
    the duplicate-removal loop that [create_guided_route] runs, and copies
    [reference_route[merge_idx+1:]] as it is.  For the start (0,0), the
    destination (3,0) and the reference route (1,0), (2,0), (2,0), (3,0) it
    returns (0,0), (1,0), (2,0), (2,0), (3,0), where the coordinates at
    indices 2 and 3 are equal; the loop of [create_guided_route], run on
    that sequence, removes the repetition. *)
Theorem C1_optimized_route_keeps_duplicates :
  route_coordinates
    (create_optimized_route_from_position no_path_libs (0, 0)%float
       (3, 0)%float (Some repeated_route) "naut")
  = Some [(0, 0); (1, 0); (2, 0); (2, 0); (3, 0)]%float /\
  ~ no_consecutive_duplicates [(0, 0); (1, 0); (2, 0); (2, 0); (3, 0)]%float /\
  remove_consecutive_duplicates [(0, 0); (1, 0); (2, 0); (2, 0); (3, 0)]%float
  = Ok [(0, 0); (1, 0); (2, 0); (3, 0)]%float.
Proof.
  split; [vm_compute; reflexivity|]. split; [|vm_compute; reflexivity].
  intros H. specialize (H 2 (2, 0)%float (2, 0)%float eq_refl eq_refl).
  vm_compute in H. discriminate.
Qed.

(** The course filter has no duplicate-removal loop either: it keeps
    [coords[0]] and the route from the first waypoint that passes the
    heading test, whatever that waypoint is.  On the pathfinder's route
    (0,0), (1,0), (0,0), (2,0) with course 0 and tolerance 45, the waypoint
    (1,0) bears 90 and is dropped, the next one is the start itself, whose
    bearing from the start is 0, and the handler returns (0,0), (0,0),
    (2,0). *)
Example course_filter_repeats_start :
  route_coordinates
    (get_route returning_libs 0 0 0 2 "naut" (Some 0%float) 45 "original")
  = Some [(0, 0); (0, 0); (2, 0)]%float /\
  ~ no_consecutive_duplicates [(0, 0); (0, 0); (2, 0)]%float.
Proof.
  split; [vm_compute; reflexivity|].
  intros H. specialize (H 0 (0, 0)%float (0, 0)%float eq_refl eq_refl).
  vm_compute in H. discriminate.
Qed.

(** ** C2: end points *)

(** C2, as stated, fails for the route after course filtering: the filter
    runs for every route type and keeps [coords[0]], and for the original
    route type that is the first point of the pathfinder's route, not the
    start.  Here the ship is at (0,0), the pathfinder's route starts at
    (0.5,0), the course is 90 and the tolerance 45: the filtered route
    starts at (0.5,0). *)
Lemma C2_counterexample_original_route_start :
  route_coordinates
    (get_route network_libs 0 0 0 2 "naut" (Some 90%float) 45 "original")
  = Some [(0.5, 0); (1, 0); (1.5, 0); (2, 0)]%float /\
  coord_eqb (0.5, 0)%float (0, 0)%float = false /\
  ~ starts_and_ends [(0.5, 0); (1, 0); (1.5, 0); (2, 0)]%float
      (0, 0)%float (2, 0)%float.
Proof.
  split; [vm_compute; reflexivity|]. split; [vm_compute; reflexivity|].
  intros [H _].
  apply (f_equal (fun o => match o with
                           | Some p => coord_eqb p (0, 0)%float
                           | None => true
                           end)) in H.
  vm_compute in H. discriminate.
Qed.

(** C2, amended: for a destination in the range of the data model, the
    route of either builder, and the route the [/route] handler returns for
    the optimized and guided strategies with or without a course, starts at
    the start position and ends at a coordinate that compares equal to the
    destination.  For any other route type, the route filtered by a course
    starts at the first coordinate of the pathfinder's route and ends at a
    coordinate that compares equal to the destination. *)
Theorem C2_endpoints (L : Libs) (ship destination : Coord) :
  valid_coord destination = true ->
  (forall reference units f,
     create_optimized_route_from_position L ship destination reference units
       = Ok f ->
     starts_and_ends (coordinates (geometry f)) ship destination)
  /\
  (forall units spacing f,
     create_guided_route L ship destination units spacing = Ok f ->
     starts_and_ends (coordinates (geometry f)) ship destination)
  /\
  (forall units course heading_tol route_type f,
     route_type = "optimized" \/ route_type = "guided" ->
     get_route L ship.2 ship.1 destination.2 destination.1 units course
       heading_tol route_type = Ok f ->
     starts_and_ends (coordinates (geometry f)) ship destination)
  /\
  (forall units course heading_tol route_type feature c0 rest f,
     route_type <> "optimized" -> route_type <> "guided" ->
     searoute L ship destination units = Ok feature ->
     coordinates (geometry feature) = c0 :: rest -> rest <> [] ->
     get_route L ship.2 ship.1 destination.2 destination.1 units (Some course)
       heading_tol route_type = Ok f ->
     starts_and_ends (coordinates (geometry f)) c0 destination).
Proof.
  intros Hv.
  assert (forall reference units f,
            create_optimized_route_from_position L ship destination reference
              units = Ok f ->
            starts_and_ends (coordinates (geometry f)) ship destination)
    as Hopt.
  { intros reference units f H.
    apply create_optimized_route_inv in H as (r & i & p & _ & _ & H).
    unfold optimized_base in H. simpl in H.
    eapply ensure_destination_ends; eauto. }
  assert (forall units spacing f,
            create_guided_route L ship destination units spacing = Ok f ->
            starts_and_ends (coordinates (geometry f)) ship destination)
    as Hguided.
  { intros units spacing f H.
    apply create_guided_route_inv in H as (waypoints & new_coords & Hn & H).
    apply ensure_destination_ends in Hn as [Hhead (p & Hp & Hpd)]; [|done].
    apply remove_consecutive_duplicates_spec in H
      as (_ & Hh & p' & q & Hp' & Hq & Hpq).
    split; [congruence|]. exists q. split; [assumption|].
    assert (p' = p) as -> by congruence.
    destruct Hpq as [->|Hpq]; [assumption|].
    eapply coord_eqb_trans; [|exact Hpd]. now rewrite coord_eqb_comm. }
  split; [exact Hopt|]. split; [exact Hguided|]. split.
  - intros units course heading_tol route_type f Hrt H.
    unfold get_route in H. destruct ship as [start_lng start_lat].
    destruct destination as [end_lng end_lat]. simpl in H.
    match type of H with
    | match ?c with _ => _ end = _ =>
        destruct c as [f0|] eqn:Hc; [|discriminate]
    end.
    injection H as ->.
    apply bind_ok in Hc as (feature & Hfeat & Hfilter).
    assert (starts_and_ends (coordinates (geometry feature))
              (start_lng, start_lat) (end_lng, end_lat)) as Hse.
    { destruct Hrt as [-> | ->]; simpl in Hfeat; eauto. }
    apply apply_course_filter_inv in Hfilter
      as [->|(c & filtered & _ & _ & Hf & ->)]; [assumption|].
    simpl. destruct (coordinates (geometry feature)) as [|c0 rest] eqn:Hco;
      [discriminate|].
    destruct Hse as [[= ->] _].
    eapply course_filter_coords_ends; eauto.
  - intros units course heading_tol route_type feature c0 rest f Ho Hg Hsr Hco
      Hrest H.
    unfold get_route in H. destruct ship as [start_lng start_lat].
    destruct destination as [end_lng end_lat]. simpl in H, Hsr.
    destruct (String.eqb route_type "optimized") eqn:Eo;
      [now apply String.eqb_eq in Eo|].
    destruct (String.eqb route_type "guided") eqn:Eg;
      [now apply String.eqb_eq in Eg|].
    match type of H with
    | match ?c with _ => _ end = _ =>
        destruct c as [f0|] eqn:Hc; [|discriminate]
    end.
    injection H as ->.
    apply bind_ok in Hc as (feature' & Hfeat & Hfilter).
    assert (feature' = feature) as -> by congruence.
    unfold apply_course_filter in Hfilter. rewrite Hco in Hfilter.
    destruct rest as [|c1 rest]; [done|]. simpl in Hfilter.
    apply bind_ok in Hfilter as (filtered & Hf & Hfilter).
    injection Hfilter as <-. simpl.
    eapply ensure_destination_ends; eauto.
Qed.

Lemma C2_endpoints_witness :
  valid_coord (2, 0)%float = true /\
  (exists f,
     create_optimized_route_from_position eastbound_libs (0, 0)%float
       (2, 0)%float None "naut" = Ok f /\
     starts_and_ends (coordinates (geometry f)) (0, 0)%float (2, 0)%float) /\
  (exists f,
     create_guided_route eastbound_libs (0, 0)%float (2, 0)%float "naut" 3
       = Ok f /\
     starts_and_ends (coordinates (geometry f)) (0, 0)%float (2, 0)%float) /\
  (exists f,
     get_route eastbound_libs 0 0 0 2 "naut" (Some 270%float) 45 "guided"
       = Ok f /\
     starts_and_ends (coordinates (geometry f)) (0, 0)%float (2, 0)%float) /\
  (exists f,
     get_route network_libs 0 0 0 2 "naut" (Some 90%float) 45 "original"
       = Ok f /\
     starts_and_ends (coordinates (geometry f)) (0.5, 0)%float (2, 0)%float).
Proof.
  assert (valid_coord (2, 0)%float = true) as Hv by reflexivity.
  split; [exact Hv|].
  split; [|split; [|split]]; eexists; (split; [vm_compute; reflexivity|]).
  - apply (proj1 (C2_endpoints eastbound_libs (0, 0)%float (2, 0)%float Hv)
             None "naut").
    vm_compute. reflexivity.
  - apply (proj1 (proj2 (C2_endpoints eastbound_libs (0, 0)%float (2, 0)%float
                           Hv)) "naut" 3).
    vm_compute. reflexivity.
  - apply (proj1 (proj2 (proj2 (C2_endpoints eastbound_libs (0, 0)%float
                                  (2, 0)%float Hv)))
             "naut" (Some 270%float) 45%float "guided"); [now right|].
    vm_compute. reflexivity.
  - apply (proj2 (proj2 (proj2 (C2_endpoints network_libs (0, 0)%float
                                  (2, 0)%float Hv)))
             "naut" 90%float 45%float "original"
             {| feature_type := "Feature";
                geometry := line_string network_route;
                properties := <["units" := JStr "naut"]> ∅ |}
             (0.5, 0)%float [(1, 0); (1.5, 0); (2, 0)]%float);
      [discriminate|discriminate|reflexivity|reflexivity|discriminate|].
    vm_compute. reflexivity.
Defined.

(** ** C3: the course filter when no waypoint matches the course *)

(** C3, as stated, fails: when no waypoint passes the heading test the scan
    ends at [len(coords)], [coords[i_keep:]] is empty, and every waypoint is
    dropped.  Here the guided route (0,0), (0.5,0), (2,0) heads east and the
    course is 270; the handler returns (0,0), (2,0). *)
Lemma C3_counterexample_filter_drops_waypoints :
  route_coordinates
    (create_guided_route eastbound_libs (0, 0)%float (2, 0)%float "naut" 3)
  = Some eastbound_guided /\
  (forall k p,
     1 <= k -> eastbound_guided !! k = Some p ->
     (_ang_diff eastbound_libs (_bearing eastbound_libs (0, 0)%float p) 270
        <=? 45)%float = false) /\
  route_coordinates
    (get_route eastbound_libs 0 0 0 2 "naut" (Some 270%float) 45 "guided")
  = Some [(0, 0); (2, 0)]%float /\
  [(0, 0); (2, 0)]%float <> eastbound_guided.
Proof.
  split; [vm_compute; reflexivity|].
  split; [|split; [vm_compute; reflexivity|discriminate]].
  intros [|[|[|k]]] p Hk; [lia| | |]; simpl; intros [= <-];
    vm_compute; reflexivity.
Qed.

(** C3, amended: when the route has a waypoint and no waypoint [k >= 1]
    passes the heading test, the filter drops every waypoint: the filtered
    route is the start followed by the destination (the start alone when it
    compares equal to the destination), with length and duration recomputed
    on it. *)
Theorem C3_course_filter_without_match (L : Libs) (feature : Feature)
    (destination : Coord) (units : string) (course heading_tol : float)
    (c0 : Coord) (rest : list Coord) :
  coordinates (geometry feature) = c0 :: rest ->
  rest <> [] ->
  (forall k p,
     1 <= k -> (c0 :: rest) !! k = Some p ->
     (_ang_diff L (_bearing L c0 p) course <=? heading_tol)%float = false) ->
  exists f',
    apply_course_filter L feature destination units (Some course) heading_tol
      = Ok f' /\
    coordinates (geometry f') =
      (if coord_neqb c0 destination then [c0; destination] else [c0]) /\
    properties f' !! "length" =
      Some (JNum (total_distance L (coordinates (geometry f')) units)) /\
    properties f' !! "duration_hours" =
      Some (JNum (duration_hours
                    (total_distance L (coordinates (geometry f')) units)
                    units)).
Proof.
  intros Hc Hne Hnone. unfold apply_course_filter. rewrite Hc.
  assert ((1 <? length (c0 :: rest)) = true) as ->.
  { apply Nat.ltb_lt. destruct rest; [done|simpl; lia]. }
  unfold course_filter_coords. simpl drop at 1. rewrite drop_0.
  rewrite course_scan_none.
  2:{ intros p Hp. apply list_elem_of_lookup in Hp as [k Hk].
      apply (Hnone (S k)); [lia|exact Hk]. }
  simpl drop. rewrite drop_all. unfold ensure_destination. simpl.
  eexists. split; [reflexivity|]. simpl.
  split; [now destruct (coord_neqb c0 destination)|].
  split.
  - now rewrite lookup_insert_ne, lookup_insert_eq.
  - now rewrite lookup_insert_eq.
Qed.

Lemma C3_course_filter_without_match_witness :
  exists f',
    apply_course_filter eastbound_libs eastbound_feature (2, 0)%float "naut"
      (Some 270%float) 45 = Ok f' /\
    coordinates (geometry f') = [(0, 0); (2, 0)]%float /\
    properties f' !! "length" =
      Some (JNum (total_distance eastbound_libs
                    (coordinates (geometry f')) "naut")) /\
    properties f' !! "duration_hours" =
      Some (JNum (duration_hours
                    (total_distance eastbound_libs
                       (coordinates (geometry f')) "naut") "naut")).
Proof.
  apply (C3_course_filter_without_match eastbound_libs eastbound_feature
           (2, 0)%float "naut" 270%float 45%float (0, 0)%float
           [(0.5, 0); (2, 0)]%float).
  - reflexivity.
  - discriminate.
  - intros [|[|[|k]]] p Hk; [lia| | |]; simpl; intros [= <-];
      vm_compute; reflexivity.
Defined.

(** ** C4: the score of a merge candidate *)

(** C4, as stated, fails: [find_optimal_merge_point] does not receive the
    destination; its [bearing_to_dest] is the bearing to the last point of
    the reference route.  With a destination to the west and a reference
    route that ends to the east, both candidates are scanned and within the
    bound, the selector returns index 1, and index 0 has the lower score
    with the caller's destination. *)
Lemma C4_counterexample_score_ignores_destination :
  (exists f,
     create_optimized_route_from_position no_path_libs (0, 0)%float
       (-3, 0)%float (Some west_east_route) "naut" = Ok f /\
     properties f !! "merge_point_index" = Some (JInt 1)) /\
  closest_index no_path_libs (0, 0)%float west_east_route = 0 /\
  too_far no_path_libs (0, 0)%float 200 (-1, 0)%float = false /\
  too_far no_path_libs (0, 0)%float 200 (1.5, 0)%float = false /\
  (spec_merge_score no_path_libs (0, 0)%float (-3, 0)%float (-1, 0)%float
   <? spec_merge_score no_path_libs (0, 0)%float (-3, 0)%float (1.5, 0)%float)%float
  = true.
Proof.
  split; [|repeat split; vm_compute; reflexivity].
  eexists. split; vm_compute; reflexivity.
Qed.

(** C4, amended: a scanned candidate [p] within the deviation bound is
    scored as the geodesic distance from the start to [p] plus 2 times the
    angular difference between the bearing to [p] and the bearing to the
    last point of the reference route.  When some candidate within the bound
    has a score below infinity, the selector returns a candidate within the
    bound, at or after [closest_index], and no candidate within the bound
    has a strictly lower score. *)
Theorem C4_merge_point_minimises_score (L : Libs) (ship : Coord)
    (reference_route : list Coord) (max_deviation_km : float)
    (route_end : Coord) (idx : nat) (pt : Coord) :
  let dist := fun p : Coord =>
    geodesic_kilometers L (ship.2, ship.1) (p.2, p.1) in
  let score := fun p : Coord =>
    (dist p + _ang_diff L (_bearing L ship p) (_bearing L ship route_end) * 2)%float in
  last reference_route = Some route_end ->
  find_optimal_merge_point L ship reference_route max_deviation_km
    = Ok (idx, pt) ->
  (exists j p,
     closest_index L ship reference_route <= j /\
     reference_route !! j = Some p /\
     (max_deviation_km <? dist p)%float = false /\
     (score p <? infinity)%float = true) ->
  closest_index L ship reference_route <= idx /\
  reference_route !! idx = Some pt /\
  (max_deviation_km <? dist pt)%float = false /\
  forall j p,
    closest_index L ship reference_route <= j ->
    reference_route !! j = Some p ->
    (max_deviation_km <? dist p)%float = false ->
    (score p <? score pt)%float = false.
Proof.
  intros dist score Hlast Hfind (j & p & Hj & Hp & Hfar & Hscore).
  destruct (find_optimal_merge_point_cases L ship route_end max_deviation_km
              reference_route Hlast)
    as [(k & q & Hq & Hqfar & Hres & Hmin)|(q & _ & _ & Hnone)].
  - rewrite Hres in Hfind. injection Hfind as <- <-.
    split; [lia|]. split; [assumption|]. split; [exact Hqfar|exact Hmin].
  - specialize (Hnone j p Hj Hp Hfar). unfold merge_score in Hnone.
    unfold score, dist in Hscore. congruence.
Qed.

Lemma C4_merge_point_minimises_score_witness :
  closest_index no_path_libs (0, 0)%float west_east_route <= 1 /\
  west_east_route !! 1 = Some (1.5, 0)%float /\
  (200 <? geodesic_kilometers no_path_libs (0, 0)%float (0, 1.5)%float)%float
    = false /\
  forall j p,
    closest_index no_path_libs (0, 0)%float west_east_route <= j ->
    west_east_route !! j = Some p ->
    (200 <? geodesic_kilometers no_path_libs (0, 0)%float (p.2, p.1))%float
      = false ->
    (geodesic_kilometers no_path_libs (0, 0)%float (p.2, p.1)
     + _ang_diff no_path_libs (_bearing no_path_libs (0, 0)%float p)
         (_bearing no_path_libs (0, 0)%float (1.5, 0)%float) * 2
     <? geodesic_kilometers no_path_libs (0, 0)%float (0, 1.5)%float
        + _ang_diff no_path_libs
            (_bearing no_path_libs (0, 0)%float (1.5, 0)%float)
            (_bearing no_path_libs (0, 0)%float (1.5, 0)%float) * 2)%float
    = false.
Proof.
  apply (C4_merge_point_minimises_score no_path_libs (0, 0)%float
           west_east_route 200%float (1.5, 0)%float 1 (1.5, 0)%float).
  - reflexivity.
  - vm_compute. reflexivity.
  - exists 1, (1.5, 0)%float. vm_compute. repeat split; lia.
Defined.

(** ** C5: the selector always answers *)

(** C5: on a reference route that is not empty the selector returns an
    index and the coordinate of the route at that index; when every scanned
    candidate is farther than [max_deviation_km] from the start, the index
    is [min(closest_idx + len // 4, len - 1)]. *)
Theorem C5_merge_point_always_found (L : Libs) (ship : Coord)
    (reference_route : list Coord) (max_deviation_km : float) :
  reference_route <> [] ->
  exists idx pt,
    find_optimal_merge_point L ship reference_route max_deviation_km
      = Ok (idx, pt) /\
    reference_route !! idx = Some pt /\
    ((forall j p,
        closest_index L ship reference_route <= j ->
        reference_route !! j = Some p ->
        (max_deviation_km <?
           geodesic_kilometers L (ship.2, ship.1) (p.2, p.1))%float = true) ->
     idx = (closest_index L ship reference_route
            + length reference_route `div` 4)
             `min` (length reference_route - 1)).
Proof.
  intros Hne.
  destruct (last reference_route) as [route_end|] eqn:Hlast;
    [|now apply last_None in Hlast].
  destruct (find_optimal_merge_point_cases L ship route_end max_deviation_km
              reference_route Hlast)
    as [(k & q & Hq & Hqfar & Hres & _)|(q & Hq & Hres & _)].
  - eexists _, _. split; [exact Hres|]. split; [exact Hq|].
    intros Hall.
    specialize (Hall _ q (Nat.le_add_r _ k) Hq).
    unfold too_far in Hqfar. congruence.
  - eexists _, _. split; [exact Hres|]. split; [exact Hq|]. reflexivity.
Qed.

Lemma C5_merge_point_always_found_witness :
  far_route <> [] /\
  exists idx pt,
    find_optimal_merge_point no_path_libs (0, 0)%float far_route 200
      = Ok (idx, pt) /\
    far_route !! idx = Some pt /\
    ((forall j p,
        closest_index no_path_libs (0, 0)%float far_route <= j ->
        far_route !! j = Some p ->
        (200 <? geodesic_kilometers no_path_libs (0, 0)%float (p.2, p.1))%float
          = true) ->
     idx = (closest_index no_path_libs (0, 0)%float far_route
            + length far_route `div` 4) `min` (length far_route - 1)).
Proof.
  assert (far_route <> []) as Hne by discriminate.
  split; [exact Hne|].
  exact (C5_merge_point_always_found no_path_libs (0, 0)%float far_route
           200%float Hne).
Defined.

(** The forward index on [far_route]: 500 km off, the ship merges at
    index 1 = min(0 + 4 // 4, 3). *)
Example far_route_fallback :
  find_optimal_merge_point no_path_libs (0, 0)%float far_route 200
  = Ok (1, (6, 0)%float).
Proof. vm_compute. reflexivity. Qed.

(** ** C6: forward progress *)

(** C6: on a reference route that is not empty, [closest_index] is the
    index of a point of the route than which no point is strictly closer to
    the start, and the index the selector returns is not below it. *)
Theorem C6_forward_progress (L : Libs) (ship : Coord)
    (reference_route : list Coord) (max_deviation_km : float) :
  reference_route <> [] ->
  exists idx pt q,
    find_optimal_merge_point L ship reference_route max_deviation_km
      = Ok (idx, pt) /\
    reference_route !! closest_index L ship reference_route = Some q /\
    (forall j p,
       reference_route !! j = Some p ->
       (geodesic_kilometers L (ship.2, ship.1) (p.2, p.1)
        <? geodesic_kilometers L (ship.2, ship.1) (q.2, q.1))%float = false) /\
    closest_index L ship reference_route <= idx.
Proof.
  intros Hne.
  pose proof (closest_index_lt L ship reference_route Hne) as Hc.
  destruct (lookup_lt_is_Some_2 _ _ Hc) as [q Hq].
  destruct (last reference_route) as [route_end|] eqn:Hlast;
    [|now apply last_None in Hlast].
  assert (forall j p,
            reference_route !! j = Some p ->
            (geodesic_kilometers L (ship.2, ship.1) (p.2, p.1)
             <? geodesic_kilometers L (ship.2, ship.1) (q.2, q.1))%float
            = false) as Hmin.
  { intros j p Hp. eapply closest_index_minimal; eauto. }
  destruct (find_optimal_merge_point_cases L ship route_end max_deviation_km
              reference_route Hlast)
    as [(k & x & _ & _ & Hres & _)|(x & _ & Hres & _)].
  - eexists _, _, q. repeat split; [exact Hres|exact Hq|exact Hmin|lia].
  - eexists _, _, q. repeat split; [exact Hres|exact Hq|exact Hmin|].
    unfold forward_index. lia.
Qed.

Lemma C6_forward_progress_witness :
  west_east_route <> [] /\
  exists idx pt q,
    find_optimal_merge_point no_path_libs (0, 0)%float west_east_route 200
      = Ok (idx, pt) /\
    west_east_route !! closest_index no_path_libs (0, 0)%float west_east_route
      = Some q /\
    (forall j p,
       west_east_route !! j = Some p ->
       (geodesic_kilometers no_path_libs (0, 0)%float (p.2, p.1)
        <? geodesic_kilometers no_path_libs (0, 0)%float (q.2, q.1))%float
       = false) /\
    closest_index no_path_libs (0, 0)%float west_east_route <= idx.
Proof.
  assert (west_east_route <> []) as Hne by discriminate.
  split; [exact Hne|].
  exact (C6_forward_progress no_path_libs (0, 0)%float west_east_route
           200%float Hne).
Defined.

(** ** C7 and C10: the degenerate reference route *)

(** What [create_guided_route] computes when the reference route, after the
    offset retry, has at most 2 points: no waypoint is taken from it. *)
Lemma create_guided_route_degenerate (L : Libs) (ship destination : Coord)
    (units : string) (spacing : nat) (ref_feature : Feature) :
  searoute L ship destination units = Ok ref_feature ->
  length (retry_reference L ship destination units
            (coordinates (geometry ref_feature))) <= 2 ->
  exists new_coords filtered_coords f,
    ensure_destination [ship] destination = Ok new_coords /\
    remove_consecutive_duplicates new_coords = Ok filtered_coords /\
    create_guided_route L ship destination units spacing = Ok f /\
    coordinates (geometry f) = filtered_coords /\
    properties f !! "length" =
      Some (JNum (total_distance L filtered_coords units)).
Proof.
  intros Hsr Hlen. unfold create_guided_route. rewrite Hsr.
  change (Ok (coordinates (geometry ref_feature)) ≫= ?k)
    with (k (coordinates (geometry ref_feature))).
  cbv beta.
  assert ((2 <? length (retry_reference L ship destination units
                          (coordinates (geometry ref_feature)))) = false)
    as -> by (apply Nat.ltb_ge; lia).
  change (Ok [] ≫= ?k) with (k (@nil Coord)). cbv beta.
  destruct (ensure_destination_total ship [] destination) as [new_coords Hn].
  rewrite Hn. exists new_coords.
  change (Ok new_coords ≫= ?k) with (k new_coords). cbv beta.
  destruct (remove_consecutive_duplicates new_coords)
    as [filtered_coords|e] eqn:Hf.
  - exists filtered_coords. eexists. split; [reflexivity|].
    split; [reflexivity|]. split; [reflexivity|]. split; [reflexivity|].
    simpl. now rewrite lookup_insert_eq.
  - unfold ensure_destination in Hn. simpl in Hn.
    destruct (coord_neqb ship destination); injection Hn as <-; discriminate.
Qed.

(** C7, as stated, fails: when the start compares equal to the destination
    the destination is not appended, and the route is the single point
    [start]. *)
Lemma C7_counterexample_start_equals_destination :
  route_coordinates (searoute no_path_libs (1, 0)%float (1, 0)%float "naut")
  = Some [(1, 0); (1, 0)]%float /\
  length (retry_reference no_path_libs (1, 0)%float (1, 0)%float "naut"
            [(1, 0); (1, 0)]%float) <= 2 /\
  route_coordinates
    (create_guided_route no_path_libs (1, 0)%float (1, 0)%float "naut" 3)
  = Some [(1, 0)%float] /\
  [(1, 0)%float] <> [(1, 0); (1, 0)]%float.
Proof.
  split; [vm_compute; reflexivity|].
  split; [vm_compute; lia|].
  split; [vm_compute; reflexivity|discriminate].
Qed.

(** C7, amended: if the reference route still has at most 2 points after
    the offset retry and the start differs from the destination, the guided
    route is exactly [start, destination]. *)
Theorem C7_degenerate_reference_route (L : Libs) (ship destination : Coord)
    (units : string) (spacing : nat) (ref_feature : Feature) :
  searoute L ship destination units = Ok ref_feature ->
  length (retry_reference L ship destination units
            (coordinates (geometry ref_feature))) <= 2 ->
  coord_neqb ship destination = true ->
  route_coordinates (create_guided_route L ship destination units spacing)
  = Some [ship; destination].
Proof.
  intros Hsr Hlen Hne.
  destruct (create_guided_route_degenerate L ship destination units spacing
              ref_feature Hsr Hlen) as (new_coords & filtered & f & Hn & Hf & -> & Hc & _).
  simpl. rewrite Hc. unfold ensure_destination in Hn. simpl in Hn.
  rewrite Hne in Hn. injection Hn as <-.
  unfold remove_consecutive_duplicates, dedup_step in Hf. simpl in Hf.
  unfold coord_neqb in Hne, Hf. rewrite coord_eqb_comm in Hf.
  destruct (coord_eqb ship destination); [discriminate|].
  simpl in Hf. congruence.
Qed.

Lemma C7_degenerate_reference_route_witness :
  searoute no_path_libs (-5, -5)%float (5, 5)%float "naut"
  = straight_line (-5, -5)%float (5, 5)%float "naut" /\
  length (retry_reference no_path_libs (-5, -5)%float (5, 5)%float "naut"
            [(-5, -5); (5, 5)]%float) <= 2 /\
  coord_neqb (-5, -5)%float (5, 5)%float = true /\
  route_coordinates
    (create_guided_route no_path_libs (-5, -5)%float (5, 5)%float "naut" 3)
  = Some [(-5, -5); (5, 5)]%float.
Proof.
  assert (length (retry_reference no_path_libs (-5, -5)%float (5, 5)%float
                    "naut" [(-5, -5); (5, 5)]%float) <= 2) as Hlen
    by (vm_compute; lia).
  split; [reflexivity|]. split; [exact Hlen|]. split; [reflexivity|].
  exact (C7_degenerate_reference_route no_path_libs (-5, -5)%float
           (5, 5)%float "naut" 3 _ eq_refl Hlen eq_refl).
Defined.

(** C10: if the start compares equal to the destination and the reference
    route still has at most 2 points after the offset retry, the guided
    route is the single point [start], one coordinate short of a polyline,
    and its reported length is 0. *)
Theorem C10_single_point_route (L : Libs) (ship destination : Coord)
    (units : string) (spacing : nat) (ref_feature : Feature) :
  searoute L ship destination units = Ok ref_feature ->
  length (retry_reference L ship destination units
            (coordinates (geometry ref_feature))) <= 2 ->
  coord_eqb ship destination = true ->
  exists f,
    create_guided_route L ship destination units spacing = Ok f /\
    coordinates (geometry f) = [ship] /\
    length (coordinates (geometry f)) < 2 /\
    properties f !! "length" = Some (JNum 0).
Proof.
  intros Hsr Hlen Heq.
  destruct (create_guided_route_degenerate L ship destination units spacing
              ref_feature Hsr Hlen) as (new_coords & filtered & f & Hn & Hf & Hr & Hc & Hl).
  unfold ensure_destination, coord_neqb in Hn. simpl in Hn.
  rewrite Heq in Hn. injection Hn as <-.
  injection Hf as <-.
  exists f. split; [exact Hr|]. split; [exact Hc|].
  split; [rewrite Hc; simpl; lia|]. rewrite Hl. reflexivity.
Qed.

Lemma C10_single_point_route_witness :
  searoute no_path_libs (1, 0)%float (1, 0)%float "naut"
  = straight_line (1, 0)%float (1, 0)%float "naut" /\
  coord_eqb (1, 0)%float (1, 0)%float = true /\
  exists f,
    create_guided_route no_path_libs (1, 0)%float (1, 0)%float "naut" 3
      = Ok f /\
    coordinates (geometry f) = [(1, 0)%float] /\
    length (coordinates (geometry f)) < 2 /\
    properties f !! "length" = Some (JNum 0).
Proof.
  assert (length (retry_reference no_path_libs (1, 0)%float (1, 0)%float
                    "naut" [(1, 0); (1, 0)]%float) <= 2) as Hlen
    by (vm_compute; lia).
  split; [reflexivity|]. split; [reflexivity|].
  exact (C10_single_point_route no_path_libs (1, 0)%float (1, 0)%float
           "naut" 3 _ eq_refl Hlen eq_refl).
Defined.

(** ** C8: units *)

(** C8: the nautical and statute mile distances are the kilometre distance
    times 0.539957 and 0.621371 (the very product the function returns, so
    the equality is exact and the relative error is zero), and every units
    string other than "km" and "naut" gives the statute mile value. *)
Theorem C8_unit_conversion (L : Libs) (p1 p2 : Coord) :
  calculate_distance L p1 p2 "naut"
    = (calculate_distance L p1 p2 "km" * 0.539957)%float /\
  calculate_distance L p1 p2 "mi"
    = (calculate_distance L p1 p2 "km" * 0.621371)%float /\
  forall units : string,
    units <> "km" -> units <> "naut" ->
    calculate_distance L p1 p2 units = calculate_distance L p1 p2 "mi".
Proof.
  split; [reflexivity|]. split; [reflexivity|].
  intros units Hkm Hnaut. unfold calculate_distance.
  destruct (String.eqb_spec units "naut") as [->|_]; [done|].
  destruct (String.eqb_spec units "km") as [->|_]; [done|].
  reflexivity.
Qed.

(** ** C9: what the course filter leaves alone *)

(** C9: the course filter changes the coordinates of the geometry and the
    [length] and [duration_hours] properties only: the feature and geometry
    types and every other property ([units], [route_type], the diagnostic
    fields) are those of the composed feature. *)
Theorem C9_course_filter_frame (L : Libs) (feature : Feature)
    (destination : Coord) (units : string) (course : option float)
    (heading_tol : float) (f' : Feature) :
  apply_course_filter L feature destination units course heading_tol = Ok f' ->
  feature_type f' = feature_type feature /\
  geometry_type (geometry f') = geometry_type (geometry feature) /\
  forall key : string,
    key <> "length" -> key <> "duration_hours" ->
    properties f' !! key = properties feature !! key.
Proof.
  intros H. apply apply_course_filter_inv in H
    as [->|(c & filtered & _ & _ & _ & ->)]; [auto|].
  simpl. split; [reflexivity|]. split; [reflexivity|].
  intros key Hl Hd. now rewrite !lookup_insert_ne.
Qed.

Lemma C9_course_filter_frame_witness :
  exists f',
    apply_course_filter eastbound_libs eastbound_feature (2, 0)%float "naut"
      (Some 270%float) 45 = Ok f' /\
    coordinates (geometry f') <> coordinates (geometry eastbound_feature) /\
    feature_type f' = "Feature" /\
    geometry_type (geometry f') = "LineString" /\
    properties f' !! "route_type" = Some (JStr "guided").
Proof.
  eexists. split; [vm_compute; reflexivity|].
  split; [discriminate|].
  destruct (C9_course_filter_frame eastbound_libs eastbound_feature
              (2, 0)%float "naut" (Some 270%float) 45%float _ eq_refl)
    as (Ht & Hg & Hp).
  split; [exact Ht|]. split; [exact Hg|].
  rewrite Hp; [reflexivity|discriminate|discriminate].
Defined.

End Claims.

(** * Further properties of the service

    As everywhere in this development the library calls are total
    functions: a statement that a builder or a handler answers is about the
    calls that return, as they do on coordinates in the range of the data
    model (geopy rejects a latitude outside [-90, 90], [math.sin] an
    infinite argument). *)

Section Extras.

Import Equator Examples Scenarios.

(** ** The features the builders return *)

Lemma create_optimized_route_feature (L : Libs) ship destination reference
    units f :
  create_optimized_route_from_position L ship destination reference units
    = Ok f ->
  exists reference_route merge_idx merge_point,
    obtain_reference L ship destination reference units = Ok reference_route /\
    find_optimal_merge_point L ship reference_route 200 =
      Ok (merge_idx, merge_point) /\
    ensure_destination
      (optimized_base L ship reference_route merge_idx merge_point)
      destination = Ok (coordinates (geometry f)) /\
    geometry f = line_string (coordinates (geometry f)) /\
    feature_type f = "Feature" /\
    properties f =
      <["length" := JNum (total_distance L (coordinates (geometry f)) units)]>
      (<["units" := JStr units]>
      (<["duration_hours" :=
           JNum (duration_hours
                   (total_distance L (coordinates (geometry f)) units) units)]>
      (<["route_type" := JStr "optimized_from_position"]>
      (<["merge_point_index" := JInt merge_idx]> ∅)))).
Proof.
  unfold create_optimized_route_from_position. intros H.
  apply bind_ok in H as (reference_route & Href & H).
  apply bind_ok in H as ([merge_idx merge_point] & Hfind & H).
  apply bind_ok in H as (route_coords & Hroute & H).
  injection H as <-. simpl. eauto 10.
Qed.

Lemma create_guided_route_feature (L : Libs) ship destination units spacing f :
  create_guided_route L ship destination units spacing = Ok f ->
  exists ref_feature waypoints new_coords,
    let reference_coords :=
      retry_reference L ship destination units
        (coordinates (geometry ref_feature)) in
    searoute L ship destination units = Ok ref_feature /\
    (if 2 <? length reference_coords
     then guided_waypoints L ship destination reference_coords spacing
     else Ok []) = Ok waypoints /\
    ensure_destination (ship :: waypoints) destination = Ok new_coords /\
    remove_consecutive_duplicates new_coords = Ok (coordinates (geometry f)) /\
    geometry f = line_string (coordinates (geometry f)) /\
    feature_type f = "Feature" /\
    properties f =
      <["length" := JNum (total_distance L (coordinates (geometry f)) units)]>
      (<["units" := JStr units]>
      (<["duration_hours" :=
           JNum (duration_hours
                   (total_distance L (coordinates (geometry f)) units) units)]>
      (<["route_type" := JStr "guided"]>
      (<["reference_points_used" := JInt (length reference_coords)]>
      (<["waypoints_created" :=
           JInt (length (coordinates (geometry f)))]> ∅))))).
Proof.
  unfold create_guided_route. intros H.
  apply bind_ok in H as (reference_coords & Href & H).
  destruct (searoute L ship destination units) as [ref_feature|e] eqn:Hsr;
    [|discriminate].
  injection Href as <-.
  apply bind_ok in H as (waypoints & Hw & H).
  apply bind_ok in H as (new_coords & Hnew & H).
  apply bind_ok in H as (filtered & Hf & H).
  injection H as <-. simpl. exists ref_feature, waypoints, new_coords.
  repeat split; assumption.
Qed.




(** ** Where the coordinates of a route come from *)

Lemma find_optimal_merge_point_lookup (L : Libs) ship reference_route
    max_deviation_km idx pt :
  find_optimal_merge_point L ship reference_route max_deviation_km
    = Ok (idx, pt) ->
  reference_route !! idx = Some pt /\
  closest_index L ship reference_route <= idx.
Proof.
  intros H.
  destruct (last reference_route) as [route_end|] eqn:Hlast.
  - destruct (find_optimal_merge_point_cases L ship route_end max_deviation_km
                reference_route Hlast)
      as [(k & q & Hq & _ & Hres & _)|(q & Hq & Hres & _)];
      rewrite Hres in H; injection H as <- <-.
    + split; [exact Hq|lia].
    + split; [exact Hq|].
      assert (reference_route <> []) as Hne by (intros ->; discriminate).
      pose proof (closest_index_lt L ship reference_route Hne).
      unfold forward_index. lia.
  - unfold find_optimal_merge_point in H. rewrite Hlast in H. discriminate.
Qed.

(** X2: the route of the composer is the start, then the merge point when
    (and only when) it is more than 100 m from the start, then every point of
    the reference route after the merge index, in order, then the
    destination when (and only when) the last of these differs from it.  The
    reported [merge_point_index] is an index of the reference route, at or
    after the point closest to the start, and the merge point is the
    reference point at that index. *)
Theorem X2_optimized_route_structure (L : Libs) (ship destination : Coord)
    (reference : option (list Coord)) (units : string) (f : Feature) :
  create_optimized_route_from_position L ship destination reference units
    = Ok f ->
  exists reference_route merge_idx merge_point middle last_point tail,
    obtain_reference L ship destination reference units = Ok reference_route /\
    properties f !! "merge_point_index" = Some (JInt merge_idx) /\
    reference_route !! merge_idx = Some merge_point /\
    closest_index L ship reference_route <= merge_idx /\
    middle =
      (if (100 <? geodesic_meters L (ship.2, ship.1)
                    (merge_point.2, merge_point.1))%float
       then [merge_point] else []) /\
    last (ship :: middle ++ drop (S merge_idx) reference_route)
      = Some last_point /\
    tail = (if coord_neqb last_point destination then [destination] else []) /\
    coordinates (geometry f) =
      ship :: middle ++ drop (S merge_idx) reference_route ++ tail.
Proof.
  intros H.
  apply create_optimized_route_feature in H
    as (r & i & p & Href & Hfind & Hens & _ & _ & Hprops).
  apply find_optimal_merge_point_lookup in Hfind as [Hp Hc].
  apply ensure_destination_spec in Hens as (q & Hq & Hcases).
  unfold optimized_base in Hq, Hcases.
  replace (i + 1) with (S i) in Hq, Hcases by lia.
  set (middle :=
         if (100 <? geodesic_meters L (ship.2, ship.1) (p.2, p.1))%float
         then [p] else []) in *.
  assert (properties f !! "merge_point_index" = Some (JInt i)) as Hidx
    by (rewrite Hprops; now simplify_map_eq).
  exists r, i, p, middle, q,
    (if coord_neqb q destination then [destination] else []).
  split; [assumption|]. split; [assumption|]. split; [assumption|].
  split; [assumption|]. split; [reflexivity|]. split; [exact Hq|].
  split; [reflexivity|].
  unfold coord_neqb.
  destruct Hcases as [[-> ->]|[-> ->]]; simpl.
  - now rewrite app_nil_r.
  - now rewrite <- !app_assoc.
Qed.

Lemma X2_optimized_route_structure_witness :
  exists f reference_route merge_idx merge_point middle last_point tail,
    create_optimized_route_from_position no_path_libs (0, 0)%float
      (3, 0)%float (Some repeated_route) "naut" = Ok f /\
    obtain_reference no_path_libs (0, 0)%float (3, 0)%float
      (Some repeated_route) "naut" = Ok reference_route /\
    properties f !! "merge_point_index" = Some (JInt merge_idx) /\
    reference_route !! merge_idx = Some merge_point /\
    closest_index no_path_libs (0, 0)%float reference_route <= merge_idx /\
    middle =
      (if (100 <? geodesic_meters no_path_libs (0, 0)%float
                    (merge_point.2, merge_point.1))%float
       then [merge_point] else []) /\
    last ((0, 0)%float :: middle ++ drop (S merge_idx) reference_route)
      = Some last_point /\
    tail = (if coord_neqb last_point (3, 0)%float then [(3, 0)%float]
            else []) /\
    coordinates (geometry f) =
      (0, 0)%float :: middle ++ drop (S merge_idx) reference_route ++ tail.
Proof.
  assert (exists f,
            create_optimized_route_from_position no_path_libs (0, 0)%float
              (3, 0)%float (Some repeated_route) "naut" = Ok f) as [f Hf]
    by (eexists; vm_compute; reflexivity).
  destruct (X2_optimized_route_structure no_path_libs (0, 0)%float
              (3, 0)%float (Some repeated_route) "naut" f Hf)
    as (r & i & p & m & q & t & H).
  exists f, r, i, p, m, q, t. split; [exact Hf|exact H].
Defined.

Lemma py_range_ge start stop step i : i ∈ py_range start stop step -> start <= i.
Proof.
  unfold py_range. intros H. apply list_elem_of_fmap in H as (k & -> & _).
  apply Nat.le_add_r.
Qed.

Lemma best_start_step_spec (L : Libs) ship bearing st i x :
  best_start_step L ship bearing st i x =
    if false then st
    else if (_ang_diff L (_bearing L ship x) bearing <? st.2)%float
         then (i, _ang_diff L (_bearing L ship x) bearing) else st.
Proof. reflexivity. Qed.

Lemma best_start_idx_ge (L : Libs) ship bearing items :
  1 <= (for_enumerate (best_start_step L ship bearing) items 1
          (1, 180%float)).1.
Proof.
  destruct (argmin_origin snd
              (fun x => _ang_diff L (_bearing L ship x) bearing)
              (fun _ => false)
              (fun i x => (i, _ang_diff L (_bearing L ship x) bearing))
              (best_start_step L ship bearing)
              (best_start_step_spec L ship bearing) items 1 (1, 180%float))
    as [->|(k & x & _ & _ & ->)]; simpl; lia.
Qed.

Lemma elem_of_drop_1 (reference : list Coord) i c :
  1 <= i -> reference !! i = Some c -> c ∈ drop 1 reference.
Proof.
  intros Hi Hc. apply (list_elem_of_lookup_2 _ (i - 1)).
  rewrite lookup_drop. now replace (1 + (i - 1)) with i by lia.
Qed.

(** The waypoints of the guided route are points of the reference route
    other than its first point. *)
Lemma guided_waypoints_from_reference (L : Libs) ship destination
    reference_coords spacing waypoints :
  2 < length reference_coords ->
  guided_waypoints L ship destination reference_coords spacing = Ok waypoints ->
  forall c, c ∈ waypoints -> c ∈ drop 1 reference_coords.
Proof.
  intros Hlen. unfold guided_waypoints.
  set (best := (for_enumerate _ _ 1 (1, 180%float)).1).
  assert (1 <= best) as Hbest by apply best_start_idx_ge.
  destruct (spacing =? 0); [discriminate|].
  assert (forall c,
            c ∈ omap (fun i => reference_coords !! i)
                  (py_range best (length reference_coords) spacing) ->
            c ∈ drop 1 reference_coords) as Hsampled.
  { intros c Hc. apply list_elem_of_omap in Hc as (i & Hi & Hc).
    apply py_range_ge in Hi. eapply elem_of_drop_1; [|exact Hc]. lia. }
  destruct (_ && _).
  - destruct (reference_coords !! (length reference_coords - 2)) as [p|] eqn:Hp;
      [|discriminate].
    intros [= <-] c Hc. apply elem_of_app in Hc as [Hc|Hc]; [auto|].
    apply list_elem_of_singleton in Hc as ->.
    eapply elem_of_drop_1; [|exact Hp]. lia.
  - intros [= <-]. exact Hsampled.
Qed.

Lemma dedup_step_subset filtered c x :
  x ∈ dedup_step filtered c -> x ∈ filtered \/ x = c.
Proof.
  unfold dedup_step. destruct (last filtered); [|auto].
  destruct (coord_neqb c _); [|auto].
  intros H. apply elem_of_app in H as [H|H]; [auto|].
  apply list_elem_of_singleton in H. auto.
Qed.

Lemma dedup_fold_subset rest filtered x :
  x ∈ fold_left dedup_step rest filtered -> x ∈ filtered \/ x ∈ rest.
Proof.
  revert filtered. induction rest as [|c rest IH]; intros filtered H; simpl in H.
  - auto.
  - apply IH in H as [H|H].
    + apply dedup_step_subset in H as [H| ->]; [auto|]. right. left.
    + right. now right.
Qed.

(** X3: the guided builder invents no waypoint.  Every coordinate of its
    route is the start, the destination, or a point of the reference route
    (the one kept after the offset retry) other than its first point; the
    two diagnostic counts are the number of reference points and the number
    of coordinates returned. *)
Theorem X3_guided_route_provenance (L : Libs) (ship destination : Coord)
    (units : string) (spacing : nat) (f : Feature) :
  create_guided_route L ship destination units spacing = Ok f ->
  exists ref_feature,
    searoute L ship destination units = Ok ref_feature /\
    (forall c,
       c ∈ coordinates (geometry f) ->
       c = ship \/ c = destination \/
       c ∈ drop 1 (retry_reference L ship destination units
                     (coordinates (geometry ref_feature)))) /\
    properties f !! "reference_points_used" =
      Some (JInt (length (retry_reference L ship destination units
                            (coordinates (geometry ref_feature))))) /\
    properties f !! "waypoints_created" =
      Some (JInt (length (coordinates (geometry f)))).
Proof.
  intros H. apply create_guided_route_feature in H
    as (rf & w & n & Hsr & Hw & Hens & Hdedup & _ & _ & Hprops).
  exists rf. split; [exact Hsr|].
  split; [|rewrite Hprops; split; now simplify_map_eq].
  intros c Hc.
  unfold remove_consecutive_duplicates in Hdedup.
  destruct n as [|c0 rest]; [discriminate|]. injection Hdedup as Hd.
  rewrite <- Hd in Hc. apply dedup_fold_subset in Hc.
  assert (c ∈ c0 :: rest) as Hin.
  { destruct Hc as [Hc|Hc]; [|now right].
    apply list_elem_of_singleton in Hc as ->. left. }
  apply ensure_destination_spec in Hens as (q & _ & [[_ Hn]|[_ Hn]]);
    rewrite Hn in Hin.
  - apply elem_of_cons in Hin as [->|Hin]; [auto|].
    right. right. destruct (2 <? _) eqn:Hlen.
    + apply Nat.ltb_lt in Hlen.
      eapply guided_waypoints_from_reference; eauto.
    + injection Hw as <-. now apply elem_of_nil in Hin.
  - apply elem_of_app in Hin as [Hin|Hin].
    + apply elem_of_cons in Hin as [->|Hin]; [auto|].
      right. right. destruct (2 <? _) eqn:Hlen.
      * apply Nat.ltb_lt in Hlen.
        eapply guided_waypoints_from_reference; eauto.
      * injection Hw as <-. now apply elem_of_nil in Hin.
    + apply list_elem_of_singleton in Hin as ->. auto.
Qed.

Lemma X3_guided_route_provenance_witness :
  exists f ref_feature,
    create_guided_route eastbound_libs (0, 0)%float (2, 0)%float "naut" 3
      = Ok f /\
    searoute eastbound_libs (0, 0)%float (2, 0)%float "naut" = Ok ref_feature /\
    (forall c,
       c ∈ coordinates (geometry f) ->
       c = (0, 0)%float \/ c = (2, 0)%float \/
       c ∈ drop 1 (retry_reference eastbound_libs (0, 0)%float (2, 0)%float
                     "naut" (coordinates (geometry ref_feature)))) /\
    properties f !! "reference_points_used" =
      Some (JInt (length (retry_reference eastbound_libs (0, 0)%float
                            (2, 0)%float "naut"
                            (coordinates (geometry ref_feature))))) /\
    properties f !! "waypoints_created" =
      Some (JInt (length (coordinates (geometry f)))).
Proof.
  assert (exists f,
            create_guided_route eastbound_libs (0, 0)%float (2, 0)%float
              "naut" 3 = Ok f) as [f Hf]
    by (eexists; vm_compute; reflexivity).
  destruct (X3_guided_route_provenance eastbound_libs (0, 0)%float
              (2, 0)%float "naut" 3 f Hf) as (rf & H).
  exists f, rf. split; [exact Hf|exact H].
Defined.

(** ** The course filter keeps the route from the first waypoint on course *)

Lemma course_scan_spec (L : Libs) c0 course heading_tol rest i :
  (forall j p,
     rest !! j = Some p ->
     i + j < course_scan L c0 course heading_tol rest i ->
     (_ang_diff L (_bearing L c0 p) course <=? heading_tol)%float = false) /\
  (course_scan L c0 course heading_tol rest i < i + length rest ->
   exists p,
     rest !! (course_scan L c0 course heading_tol rest i - i) = Some p /\
     (_ang_diff L (_bearing L c0 p) course <=? heading_tol)%float = true).
Proof.
  revert i. induction rest as [|q rest IH]; intros i; simpl.
  - split; [intros j p Hj; now rewrite lookup_nil in Hj|lia].
  - destruct (_ <=? _)%float eqn:Hq.
    + split; [intros; lia|]. intros _. exists q.
      now rewrite Nat.sub_diag.
    + destruct (IH (S i)) as [IH1 IH2].
      pose proof (course_scan_bounds L c0 course heading_tol rest (S i)) as Hb.
      split.
      * intros [|j] p Hj Hlt; simpl in Hj.
        -- now injection Hj as <-.
        -- apply (IH1 j p Hj). lia.
      * intros Hlt. destruct IH2 as (p & Hp & Htest); [lia|].
        exists p. split; [|exact Htest].
        replace (course_scan L c0 course heading_tol rest (S i) - i)
          with (S (course_scan L c0 course heading_tol rest (S i) - S i))
          by lia.
        exact Hp.
Qed.

(** X4: with a course, a route of more than one point is filtered to its
    start followed by the route from the first waypoint whose bearing from
    the start is within [heading_tol] of the course: the waypoints before it
    are dropped, the ones after it are kept whatever their bearing, and the
    destination is appended when (and only when) the last coordinate kept
    differs from it. *)
Theorem X4_course_filter_keeps_from_first_match (L : Libs) (feature : Feature)
    (destination : Coord) (units : string) (course heading_tol : float)
    (c0 : Coord) (rest : list Coord) (f' : Feature) :
  coordinates (geometry feature) = c0 :: rest ->
  rest <> [] ->
  apply_course_filter L feature destination units (Some course) heading_tol
    = Ok f' ->
  exists k last_point tail,
    1 <= k <= S (length rest) /\
    (forall j p,
       1 <= j < k -> (c0 :: rest) !! j = Some p ->
       (_ang_diff L (_bearing L c0 p) course <=? heading_tol)%float = false) /\
    (k <= length rest ->
     exists p,
       (c0 :: rest) !! k = Some p /\
       (_ang_diff L (_bearing L c0 p) course <=? heading_tol)%float = true) /\
    last (c0 :: drop k (c0 :: rest)) = Some last_point /\
    tail = (if coord_neqb last_point destination then [destination] else []) /\
    coordinates (geometry f') = c0 :: drop k (c0 :: rest) ++ tail.
Proof.
  intros Hc Hne H. unfold apply_course_filter in H. rewrite Hc in H.
  assert ((1 <? length (c0 :: rest)) = true) as Hlen.
  { apply Nat.ltb_lt. destruct rest; [done|simpl; lia]. }
  rewrite Hlen in H. apply bind_ok in H as (filtered & Hf & H).
  injection H as <-. simpl.
  unfold course_filter_coords in Hf.
  simpl drop at 1 in Hf. rewrite drop_0 in Hf.
  set (k := course_scan L c0 course heading_tol rest 1) in *.
  pose proof (course_scan_bounds L c0 course heading_tol rest 1) as Hb.
  destruct (course_scan_spec L c0 course heading_tol rest 1) as [H1 H2].
  fold k in Hb, H1, H2.
  apply ensure_destination_spec in Hf as (q & Hq & Hcases).
  exists k, q, (if coord_neqb q destination then [destination] else []).
  split; [lia|]. split; [|split; [|split; [exact Hq|split; [reflexivity|]]]].
  - intros [|j] p Hj Hp; [lia|]. simpl in Hp. apply (H1 j p Hp). lia.
  - intros Hk. destruct H2 as (p & Hp & Htest); [lia|].
    exists p. split; [|exact Htest].
    destruct k as [|k']; [lia|]. simpl.
    now replace (S k' - 1) with k' in Hp by lia.
  - unfold coord_neqb.
    destruct Hcases as [[-> ->]|[-> ->]]; simpl.
    + now rewrite app_nil_r.
    + reflexivity.
Qed.

Lemma X4_course_filter_keeps_from_first_match_witness :
  exists f' k last_point tail,
    apply_course_filter eastbound_libs backtracking_feature (2, 0)%float
      "naut" (Some 90%float) 45 = Ok f' /\
    1 <= k <= 4 /\
    (forall j p,
       1 <= j < k -> backtracking_route !! j = Some p ->
       (_ang_diff eastbound_libs (_bearing eastbound_libs (0, 0)%float p) 90
          <=? 45)%float = false) /\
    (k <= 3 ->
     exists p,
       backtracking_route !! k = Some p /\
       (_ang_diff eastbound_libs (_bearing eastbound_libs (0, 0)%float p) 90
          <=? 45)%float = true) /\
    last ((0, 0)%float :: drop k backtracking_route) = Some last_point /\
    tail = (if coord_neqb last_point (2, 0)%float then [(2, 0)%float]
            else []) /\
    coordinates (geometry f') =
      (0, 0)%float :: drop k backtracking_route ++ tail.
Proof.
  assert (exists f',
            apply_course_filter eastbound_libs backtracking_feature
              (2, 0)%float "naut" (Some 90%float) 45 = Ok f') as [f' Hf]
    by (eexists; vm_compute; reflexivity).
  destruct (X4_course_filter_keeps_from_first_match eastbound_libs
              backtracking_feature (2, 0)%float "naut" 90%float 45%float
              (0, 0)%float [(-1, 0); (1, 0); (2, 0)]%float f' eq_refl
              ltac:(discriminate) Hf) as (k & q & tail & H).
  exists f', k, q, tail. split; [exact Hf|exact H].
Defined.

(** ** Filtering twice *)

Lemma ensure_destination_idempotent coords destination r :
  valid_coord destination = true ->
  ensure_destination coords destination = Ok r ->
  ensure_destination r destination = Ok r.
Proof.
  intros Hv H. apply ensure_destination_spec in H as (p & Hp & [[He ->]|[Hne ->]]);
    unfold ensure_destination, coord_neqb.
  - now rewrite Hp, He.
  - now rewrite last_snoc, (valid_coord_eqb_refl _ Hv).
Qed.

Lemma course_filter_coords_idempotent (L : Libs) coords destination course
    heading_tol r :
  valid_coord destination = true ->
  course_filter_coords L coords destination course heading_tol = Ok r ->
  course_filter_coords L r destination course heading_tol = Ok r.
Proof.
  intros Hv H. destruct coords as [|c0 rest]; [discriminate|].
  unfold course_filter_coords in H. simpl drop at 1 in H. rewrite drop_0 in H.
  set (k := course_scan L c0 course heading_tol rest 1) in *.
  pose proof (course_scan_bounds L c0 course heading_tol rest 1) as Hb.
  destruct (course_scan_spec L c0 course heading_tol rest 1) as [_ H2].
  fold k in Hb, H2.
  pose proof (ensure_destination_idempotent _ _ _ Hv H) as Hidem.
  destruct k as [|k]; [lia|]. simpl in H.
  destruct (drop k rest) as [|p tl] eqn:Hd.
  - (* every waypoint was dropped *)
    unfold ensure_destination, coord_neqb in H. simpl in H.
    destruct (coord_eqb c0 destination) eqn:He; injection H as <-.
    + unfold course_filter_coords. simpl.
      unfold ensure_destination, coord_neqb. simpl. now rewrite He.
    + unfold course_filter_coords. simpl.
      destruct (_ <=? _)%float; simpl.
      * exact Hidem.
      * unfold ensure_destination, coord_neqb. simpl. now rewrite He.
  - (* [p] is the first waypoint on course: the scan stops on it again *)
    assert ((_ang_diff L (_bearing L c0 p) course <=? heading_tol)%float = true)
      as Hp.
    { destruct H2 as (q & Hq & Hq').
      - apply (f_equal length) in Hd. rewrite length_drop in Hd.
        simpl in Hd. lia.
      - replace (S k - 1) with k in Hq by lia.
        rewrite <- (Nat.add_0_r k), <- lookup_drop, Hd in Hq.
        now injection Hq as ->. }
    apply ensure_destination_spec in H as (q & _ & Hcases).
    assert (exists tl', r = c0 :: p :: tl') as (tl' & ->).
    { destruct Hcases as [[_ ->]|[_ ->]]; simpl; eauto. }
    unfold course_filter_coords. simpl. rewrite Hp. simpl. exact Hidem.
Qed.

(** X5: filtering is idempotent.  For a destination in the range of the
    data model, applying the course filter to a feature it has already
    filtered (same destination, units, course and tolerance) returns that
    feature unchanged: coordinates, length and duration. *)
Theorem X5_course_filter_idempotent (L : Libs) (feature : Feature)
    (destination : Coord) (units : string) (course : option float)
    (heading_tol : float) (f' : Feature) :
  valid_coord destination = true ->
  apply_course_filter L feature destination units course heading_tol = Ok f' ->
  apply_course_filter L f' destination units course heading_tol = Ok f'.
Proof.
  intros Hv H. unfold apply_course_filter in H |- *.
  destruct course as [c|]; [|reflexivity].
  destruct (1 <? length (coordinates (geometry feature))) eqn:Hlen.
  - apply bind_ok in H as (filtered & Hf & H). injection H as <-. simpl.
    destruct (1 <? length filtered); [|reflexivity].
    rewrite (course_filter_coords_idempotent L _ _ _ _ _ Hv Hf).
    change (Ok filtered ≫= ?k) with (k filtered). cbv beta.
    do 2 f_equal. apply map_eq. intros key.
    destruct (decide (key = "duration_hours")) as [->|Hd];
      [now simplify_map_eq|].
    destruct (decide (key = "length")) as [->|Hl]; now simplify_map_eq.
  - injection H as <-. now rewrite Hlen.
Qed.

Lemma X5_course_filter_idempotent_witness :
  valid_coord (2, 0)%float = true /\
  exists f',
    apply_course_filter eastbound_libs backtracking_feature (2, 0)%float
      "naut" (Some 90%float) 45 = Ok f' /\
    coordinates (geometry f') <> coordinates (geometry backtracking_feature) /\
    apply_course_filter eastbound_libs f' (2, 0)%float "naut"
      (Some 90%float) 45 = Ok f'.
Proof.
  split; [reflexivity|].
  assert (exists f',
            apply_course_filter eastbound_libs backtracking_feature
              (2, 0)%float "naut" (Some 90%float) 45 = Ok f' /\
            coordinates (geometry f') <>
              coordinates (geometry backtracking_feature)) as (f' & Hf & Hne)
    by (eexists; split; [vm_compute; reflexivity|discriminate]).
  exists f'. split; [exact Hf|]. split; [exact Hne|].
  exact (X5_course_filter_idempotent eastbound_libs backtracking_feature
           (2, 0)%float "naut" (Some 90%float) 45%float f' eq_refl Hf).
Defined.

(** ** When the builders and the handler answer *)

Lemma find_optimal_merge_point_empty (L : Libs) ship max_deviation_km :
  find_optimal_merge_point L ship [] max_deviation_km = Raise IndexError.
Proof. reflexivity. Qed.

Lemma find_optimal_merge_point_total (L : Libs) ship reference_route
    max_deviation_km :
  reference_route <> [] ->
  exists idx pt,
    find_optimal_merge_point L ship reference_route max_deviation_km
      = Ok (idx, pt).
Proof.
  intros Hne.
  destruct (last reference_route) as [route_end|] eqn:Hlast;
    [|now apply last_None in Hlast].
  destruct (find_optimal_merge_point_cases L ship route_end max_deviation_km
              reference_route Hlast)
    as [(k & q & _ & _ & Hres & _)|(q & _ & Hres & _)]; eauto.
Qed.

Lemma create_optimized_route_total (L : Libs) ship destination reference units
    reference_route :
  obtain_reference L ship destination reference units = Ok reference_route ->
  reference_route <> [] ->
  exists f,
    create_optimized_route_from_position L ship destination reference units
      = Ok f.
Proof.
  intros Href Hne. unfold create_optimized_route_from_position.
  rewrite Href.
  destruct (find_optimal_merge_point_total L ship reference_route 200%float Hne)
    as (idx & pt & Hfind).
  change (Ok reference_route ≫= ?k) with (k reference_route). cbv beta.
  rewrite Hfind.
  change (Ok (idx, pt) ≫= ?k) with (k (idx, pt)). cbv beta iota.
  destruct (ensure_destination_total ship
              ((if (100 <? geodesic_meters L (ship.2, ship.1) (pt.2, pt.1))%float
                then [pt] else []) ++ drop (idx + 1) reference_route)
              destination) as [r Hr].
  unfold optimized_base. simpl app. rewrite Hr. eexists. reflexivity.
Qed.

Lemma guided_waypoints_total (L : Libs) ship destination reference_coords
    spacing :
  spacing <> 0 ->
  exists waypoints,
    guided_waypoints L ship destination reference_coords spacing = Ok waypoints.
Proof.
  intros Hs. unfold guided_waypoints.
  destruct (spacing =? 0) eqn:E; [apply Nat.eqb_eq in E; lia|].
  destruct (_ && _) eqn:Hc; [|eauto].
  apply andb_true_iff in Hc as [_ Hc]. apply Nat.ltb_lt in Hc.
  destruct (lookup_lt_is_Some_2 reference_coords
              (length reference_coords - 2)) as [p ->]; [lia|eauto].
Qed.

Lemma remove_consecutive_duplicates_total c coords :
  exists r, remove_consecutive_duplicates (c :: coords) = Ok r.
Proof. eexists. reflexivity. Qed.

Lemma create_guided_route_after_waypoints (L : Libs) ship destination units
    spacing ref_feature waypoints :
  searoute L ship destination units = Ok ref_feature ->
  (if 2 <? length (retry_reference L ship destination units
                     (coordinates (geometry ref_feature)))
   then guided_waypoints L ship destination
          (retry_reference L ship destination units
             (coordinates (geometry ref_feature))) spacing
   else Ok []) = Ok waypoints ->
  exists f, create_guided_route L ship destination units spacing = Ok f.
Proof.
  intros Hsr Hw. unfold create_guided_route. rewrite Hsr.
  change (Ok (coordinates (geometry ref_feature)) ≫= ?k)
    with (k (coordinates (geometry ref_feature))).
  cbv beta zeta. rewrite Hw.
  change (Ok waypoints ≫= ?k) with (k waypoints). cbv beta.
  destruct (ensure_destination_total ship waypoints destination) as [n Hn].
  rewrite Hn. change (Ok n ≫= ?k) with (k n). cbv beta.
  apply ensure_destination_spec in Hn as (q & _ & [[_ ->]|[_ ->]]);
    eexists; reflexivity.
Qed.

Lemma create_guided_route_total (L : Libs) ship destination units spacing
    ref_feature :
  searoute L ship destination units = Ok ref_feature ->
  length (retry_reference L ship destination units
            (coordinates (geometry ref_feature))) <= 2 \/ spacing <> 0 ->
  exists f, create_guided_route L ship destination units spacing = Ok f.
Proof.
  intros Hsr Hor.
  destruct (2 <? length (retry_reference L ship destination units
                           (coordinates (geometry ref_feature)))) eqn:Hlen.
  - pose proof (proj1 (Nat.ltb_lt _ _) Hlen) as Hlt.
    destruct Hor as [Hor|Hs]; [lia|].
    destruct (guided_waypoints_total L ship destination
                (retry_reference L ship destination units
                   (coordinates (geometry ref_feature))) spacing Hs)
      as [w Hw].
    eapply create_guided_route_after_waypoints; [exact Hsr|].
    rewrite Hlen. exact Hw.
  - eapply create_guided_route_after_waypoints; [exact Hsr|].
    rewrite Hlen. reflexivity.
Qed.

(** X6: the composer answers on every reference route that is not empty,
    supplied by the caller or found by the pathfinder.  It raises the
    reference route error when the pathfinder raises, and an index error
    when the reference route is empty. *)
Theorem X6_optimized_route_outcome (L : Libs) (ship destination : Coord)
    (reference : option (list Coord)) (units : string) :
  (forall e,
     reference = None ->
     searoute L ship destination units = Raise e ->
     create_optimized_route_from_position L ship destination reference units
       = Raise ReferenceRouteError) /\
  (obtain_reference L ship destination reference units = Ok [] ->
   create_optimized_route_from_position L ship destination reference units
     = Raise IndexError) /\
  (forall reference_route,
     obtain_reference L ship destination reference units = Ok reference_route ->
     reference_route <> [] ->
     exists f,
       create_optimized_route_from_position L ship destination reference units
         = Ok f).
Proof.
  split; [|split].
  - intros e -> He. unfold create_optimized_route_from_position,
      obtain_reference. now rewrite He.
  - intros He. unfold create_optimized_route_from_position. now rewrite He.
  - intros r Hr Hne. eapply create_optimized_route_total; eauto.
Qed.

(** X7: the guided builder answers whenever the first call to the
    pathfinder answers and the spacing is not zero, whatever the offset
    retry does (a retry that raises is ignored).  It raises the reference
    route error when the first call raises; a zero spacing is an error only
    on a reference route of more than 2 points. *)
Theorem X7_guided_route_outcome (L : Libs) (ship destination : Coord)
    (units : string) (spacing : nat) :
  (forall e,
     searoute L ship destination units = Raise e ->
     create_guided_route L ship destination units spacing
       = Raise ReferenceRouteError) /\
  (forall ref_feature,
     searoute L ship destination units = Ok ref_feature ->
     (length (retry_reference L ship destination units
                (coordinates (geometry ref_feature))) <= 2 \/ spacing <> 0 ->
      exists f, create_guided_route L ship destination units spacing = Ok f) /\
     (2 < length (retry_reference L ship destination units
                    (coordinates (geometry ref_feature))) ->
      spacing = 0 ->
      create_guided_route L ship destination units spacing = Raise ValueError)).
Proof.
  split.
  - intros e He. unfold create_guided_route. now rewrite He.
  - intros rf Hsr. split.
    + apply create_guided_route_total. exact Hsr.
    + intros Hlen ->. unfold create_guided_route. rewrite Hsr.
      change (Ok (coordinates (geometry rf)) ≫= ?k)
        with (k (coordinates (geometry rf))).
      cbv beta zeta. apply Nat.ltb_lt in Hlen. rewrite Hlen.
      reflexivity.
Qed.

Lemma X6_optimized_route_outcome_witness :
  create_optimized_route_from_position unavailable_libs (0, 0)%float
    (2, 0)%float None "naut" = Raise ReferenceRouteError /\
  create_optimized_route_from_position empty_libs (0, 0)%float (2, 0)%float
    None "naut" = Raise IndexError /\
  exists f,
    create_optimized_route_from_position eastbound_libs (0, 0)%float
      (2, 0)%float None "naut" = Ok f.
Proof.
  split; [|split].
  - exact (proj1 (X6_optimized_route_outcome unavailable_libs (0, 0)%float
                    (2, 0)%float None "naut") SearouteError eq_refl eq_refl).
  - exact (proj1 (proj2 (X6_optimized_route_outcome empty_libs (0, 0)%float
                           (2, 0)%float None "naut")) eq_refl).
  - apply (proj2 (proj2 (X6_optimized_route_outcome eastbound_libs
                           (0, 0)%float (2, 0)%float None "naut"))
             eastbound_route eq_refl).
    discriminate.
Defined.

Lemma X7_guided_route_outcome_witness :
  create_guided_route unavailable_libs (0, 0)%float (2, 0)%float "naut" 3
    = Raise ReferenceRouteError /\
  (exists f,
     create_guided_route eastbound_libs (0, 0)%float (2, 0)%float "naut" 3
       = Ok f) /\
  (exists f,
     create_guided_route no_path_libs (0, 0)%float (2, 0)%float "naut" 0
       = Ok f) /\
  create_guided_route eastbound_libs (0, 0)%float (2, 0)%float "naut" 0
    = Raise ValueError.
Proof.
  split; [|split; [|split]].
  - exact (proj1 (X7_guided_route_outcome unavailable_libs (0, 0)%float
                    (2, 0)%float "naut" 3) SearouteError eq_refl).
  - apply (proj1 (proj2 (X7_guided_route_outcome eastbound_libs (0, 0)%float
                           (2, 0)%float "naut" 3) _ eq_refl)).
    right. discriminate.
  - apply (proj1 (proj2 (X7_guided_route_outcome no_path_libs (0, 0)%float
                           (2, 0)%float "naut" 0) _ eq_refl)).
    left. vm_compute. lia.
  - apply (proj2 (proj2 (X7_guided_route_outcome eastbound_libs (0, 0)%float
                           (2, 0)%float "naut" 0) _ eq_refl));
      [vm_compute; lia|reflexivity].
Defined.

Lemma apply_course_filter_total (L : Libs) feature destination units course
    heading_tol :
  exists f',
    apply_course_filter L feature destination units course heading_tol = Ok f'.
Proof.
  unfold apply_course_filter. destruct course as [c|]; [|eauto].
  destruct (coordinates (geometry feature)) as [|c0 rest] eqn:Hc; [simpl; eauto|].
  destruct (1 <? _); [|eauto].
  unfold course_filter_coords.
  match goal with
  | |- context [ensure_destination ([c0] ++ ?t) destination] =>
      destruct (ensure_destination_total c0 t destination) as [r Hr];
      change ([c0] ++ t) with (c0 :: t); rewrite Hr
  end.
  eexists. reflexivity.
Qed.

(** X8: [GET /route] answers a feature exactly when the pathfinder answers
    the request, with at least one coordinate for the optimized strategy;
    neither the course nor the tolerance can make it fail.  Whatever goes
    wrong, the error is an HTTP 500. *)
Theorem X8_route_handler_status (L : Libs)
    (start_lat start_lng end_lat end_lng : float) (units : string)
    (course : option float) (heading_tol : float) (route_type : string) :
  (forall e,
     get_route L start_lat start_lng end_lat end_lng units course heading_tol
       route_type = Raise e ->
     e = HTTPException 500) /\
  ((exists f,
      get_route L start_lat start_lng end_lat end_lng units course heading_tol
        route_type = Ok f) <->
   (exists ref_feature,
      searoute L (start_lng, start_lat) (end_lng, end_lat) units
        = Ok ref_feature /\
      (route_type = "optimized" ->
       coordinates (geometry ref_feature) <> []))).
Proof.
  split.
  - unfold get_route. intros e.
    match goal with
    | |- match ?c with _ => _ end = _ -> _ => destruct c
    end; [discriminate|congruence].
  - assert (forall feature,
              (if String.eqb route_type "optimized" then
                 create_optimized_route_from_position L (start_lng, start_lat)
                   (end_lng, end_lat) None units
               else if String.eqb route_type "guided" then
                 create_guided_route L (start_lng, start_lat)
                   (end_lng, end_lat) units 3
               else searoute L (start_lng, start_lat) (end_lng, end_lat) units)
              = Ok feature ->
              exists f,
                get_route L start_lat start_lng end_lat end_lng units course
                  heading_tol route_type = Ok f) as Hback.
    { intros feature Hfeat. unfold get_route. rewrite Hfeat.
      change (Ok feature ≫= ?k) with (k feature). cbv beta.
      destruct (apply_course_filter_total L feature (end_lng, end_lat) units
                  course heading_tol) as [f' ->]. eauto. }
    assert (route_type = "optimized" <-> String.eqb route_type "optimized" = true)
      as Hiff by (symmetry; apply String.eqb_eq).
    split.
    + intros [f H]. unfold get_route in H.
      match type of H with
      | match ?c with _ => _ end = _ =>
          destruct c as [f0|] eqn:Hc; [|discriminate]
      end.
      apply bind_ok in Hc as (feature & Hfeat & _).
      destruct (String.eqb route_type "optimized") eqn:Ho.
      * apply create_optimized_route_feature in Hfeat
          as (r & i & p & Href & Hfind & _).
        unfold obtain_reference in Href.
        destruct (searoute L _ _ units) as [rf|]; [|discriminate].
        injection Href as <-. exists rf. split; [reflexivity|].
        intros _ He. rewrite He in Hfind. discriminate.
      * assert (route_type <> "optimized") as Hno
          by (intros Heq; apply Hiff in Heq; congruence).
        destruct (String.eqb route_type "guided").
        -- apply create_guided_route_feature in Hfeat as (rf & _ & _ & Hsr & _).
           exists rf. split; [exact Hsr|done].
        -- exists feature. split; [exact Hfeat|done].
    + intros (rf & Hsr & Hopt).
      destruct (String.eqb route_type "optimized") eqn:Ho.
      * destruct (create_optimized_route_total L (start_lng, start_lat)
                    (end_lng, end_lat) None units (coordinates (geometry rf)))
          as [f Hf]; [unfold obtain_reference; now rewrite Hsr| |].
        { apply Hopt, Hiff. reflexivity. }
        apply (Hback f). exact Hf.
      * destruct (String.eqb route_type "guided") eqn:Hg.
        -- destruct (create_guided_route_total L (start_lng, start_lat)
                       (end_lng, end_lat) units 3 rf Hsr) as [f Hf];
             [right; discriminate|].
           apply (Hback f). exact Hf.
        -- apply (Hback rf). exact Hsr.
Qed.

(** ** The comparison handler *)

Lemma get_route_without_course (L : Libs) start_lat start_lng end_lat end_lng
    units heading_tol route_type feature :
  (if String.eqb route_type "optimized" then
     create_optimized_route_from_position L (start_lng, start_lat)
       (end_lng, end_lat) None units
   else if String.eqb route_type "guided" then
     create_guided_route L (start_lng, start_lat) (end_lng, end_lat) units 3
   else searoute L (start_lng, start_lat) (end_lng, end_lat) units)
  = Ok feature ->
  get_route L start_lat start_lng end_lat end_lng units None heading_tol
    route_type = Ok feature.
Proof. intros H. unfold get_route. now rewrite H. Qed.

(** X9: when [GET /route/compare] answers, its [original], [optimized] and
    [guided] entries are the features [GET /route] returns for the same end
    points and units under these three route types without a course, and
    its [direct] entry is the two-point line from the start to the
    destination with their distance as length.  It answers exactly when the
    three [GET /route] requests do; otherwise the error is an HTTP 500. *)
Theorem X9_compare_agrees_with_route (L : Libs)
    (start_lat start_lng end_lat end_lng : float) (units : string)
    (heading_tol : float) :
  let route := fun route_type =>
    get_route L start_lat start_lng end_lat end_lng units None heading_tol
      route_type in
  (forall results,
     compare_routes L start_lat start_lng end_lat end_lng units = Ok results ->
     (exists f, results !! "original" = Some f /\ route "original" = Ok f) /\
     (exists f, results !! "optimized" = Some f /\ route "optimized" = Ok f) /\
     (exists f, results !! "guided" = Some f /\ route "guided" = Ok f) /\
     (exists d,
        results !! "direct" = Some d /\
        coordinates (geometry d) = [(start_lng, start_lat); (end_lng, end_lat)] /\
        properties d !! "length" =
          Some (JNum (calculate_distance L (start_lng, start_lat)
                        (end_lng, end_lat) units)))) /\
  ((exists results,
      compare_routes L start_lat start_lng end_lat end_lng units = Ok results)
   <->
   (exists f, route "original" = Ok f) /\
   (exists f, route "optimized" = Ok f) /\
   (exists f, route "guided" = Ok f)) /\
  (forall e,
     compare_routes L start_lat start_lng end_lat end_lng units = Raise e ->
     e = HTTPException 500).
Proof.
  intros route.
  assert (forall results,
            compare_routes L start_lat start_lng end_lat end_lng units
              = Ok results ->
            exists original optimized guided,
              searoute L (start_lng, start_lat) (end_lng, end_lat) units
                = Ok original /\
              create_optimized_route_from_position L (start_lng, start_lat)
                (end_lng, end_lat) None units = Ok optimized /\
              create_guided_route L (start_lng, start_lat) (end_lng, end_lat)
                units 3 = Ok guided /\
              results =
                <["direct" := direct_feature L (start_lng, start_lat)
                                (end_lng, end_lat) units]>
                (<["guided" := guided]>
                (<["optimized" := optimized]>
                (<["original" := original]> ∅)))) as Hinv.
  { intros results H. unfold compare_routes in H.
    match type of H with
    | match ?c with _ => _ end = _ =>
        destruct c as [r|] eqn:Hc; [|discriminate]
    end.
    injection H as ->.
    apply bind_ok in Hc as (original & Ho & Hc).
    apply bind_ok in Hc as (optimized & Hopt & Hc).
    apply bind_ok in Hc as (guided & Hg & Hc).
    injection Hc as <-. eauto 10. }
  split; [|split].
  - intros results H.
    apply Hinv in H as (original & optimized & guided & Ho & Hopt & Hg & ->).
    split; [|split; [|split]].
    + exists original. split; [now simplify_map_eq|].
      now apply get_route_without_course.
    + exists optimized. split; [now simplify_map_eq|].
      now apply get_route_without_course.
    + exists guided. split; [now simplify_map_eq|].
      now apply get_route_without_course.
    + eexists. split; [now simplify_map_eq|]. split; [reflexivity|].
      simpl. now simplify_map_eq.
  - split.
    + intros [results H].
      apply Hinv in H as (original & optimized & guided & Ho & Hopt & Hg & _).
      split; [|split]; eexists; apply get_route_without_course; eassumption.
    + intros ([fo Ho] & [fopt Hopt] & [fg Hg]).
      unfold route, get_route in Ho, Hopt, Hg. simpl in Ho, Hopt, Hg.
      unfold compare_routes.
      destruct (searoute L _ _ units) as [original|]; [|discriminate].
      destruct (create_optimized_route_from_position L _ _ None units)
        as [optimized|]; [|discriminate].
      destruct (create_guided_route L _ _ units 3) as [guided|];
        [|discriminate].
      eexists. reflexivity.
  - unfold compare_routes. intros e.
    match goal with
    | |- match ?c with _ => _ end = _ -> _ => destruct c
    end; [discriminate|congruence].
Qed.

(** ** The single-strategy service *)

(** X10: the single-strategy handler answers 400 exactly when an end point
    is outside the range of the data model (a NaN coordinate is outside),
    with the latitude message when a latitude is out of range, even if a
    longitude is too, and the pathfinder plays no part in it.  On end points
    in range it returns the feature of the pathfinder unchanged as GeoJSON,
    or a 500 that carries the exception of the pathfinder. *)
Theorem X10_legacy_handler (L : Libs)
    (start_lat start_lng end_lat end_lng : float) (units : string) :
  let lat_ok := fun x : float => (-90 <=? x)%float && (x <=? 90)%float in
  let in_range :=
    valid_coord (start_lng, start_lat) && valid_coord (end_lng, end_lat) in
  (in_range = false ->
   Legacy.get_route L start_lat start_lng end_lat end_lng units =
     Legacy.BadRequest
       (if lat_ok start_lat && lat_ok end_lat
        then "Longitude must be between -180 and 180 degrees."
        else "Latitude must be between -90 and 90 degrees.")) /\
  (in_range = true ->
   Legacy.get_route L start_lat start_lng end_lat end_lng units =
     match searoute L (start_lng, start_lat) (end_lng, end_lat) units with
     | Ok feature => Legacy.JSONResponse feature "application/geo+json"
     | Raise exc => Legacy.ServerError exc
     end) /\
  Legacy.get_route L nan start_lng end_lat end_lng units =
    Legacy.BadRequest "Latitude must be between -90 and 90 degrees.".
Proof.
  intros lat_ok in_range. unfold in_range, lat_ok, valid_coord.
  unfold Legacy.get_route, Legacy.validate, Legacy._validate_lat,
    Legacy._validate_lng. simpl fst. simpl snd.
  change (-90.0)%float with (-90)%float. change (90.0)%float with 90%float.
  change (-180.0)%float with (-180)%float. change (180.0)%float with 180%float.
  split; [|split].
  - destruct (-90 <=? start_lat)%float, (start_lat <=? 90)%float,
      (-90 <=? end_lat)%float, (end_lat <=? 90)%float,
      (-180 <=? start_lng)%float, (start_lng <=? 180)%float,
      (-180 <=? end_lng)%float, (end_lng <=? 180)%float;
      simpl; intros H; try reflexivity; discriminate.
  - destruct (-90 <=? start_lat)%float, (start_lat <=? 90)%float,
      (-90 <=? end_lat)%float, (end_lat <=? 90)%float,
      (-180 <=? start_lng)%float, (start_lng <=? 180)%float,
      (-180 <=? end_lng)%float, (end_lng <=? 180)%float;
      simpl; intros H; try reflexivity; discriminate.
  - reflexivity.
Qed.

Lemma X10_legacy_handler_witness :
  Legacy.get_route eastbound_libs 95 200 0 2 "km" =
    Legacy.BadRequest "Latitude must be between -90 and 90 degrees." /\
  Legacy.get_route unavailable_libs 0 200 0 2 "km" =
    Legacy.BadRequest "Longitude must be between -180 and 180 degrees." /\
  Legacy.get_route unavailable_libs 0 0 0 2 "km" =
    Legacy.ServerError SearouteError /\
  Legacy.get_route eastbound_libs 0 0 0 2 "km" =
    Legacy.JSONResponse
      {| feature_type := "Feature";
         geometry := line_string eastbound_route;
         properties := <["units" := JStr "km"]> ∅ |}
      "application/geo+json".
Proof.
  split; [|split; [|split]].
  - exact (proj1 (X10_legacy_handler eastbound_libs 95 200 0 2 "km") eq_refl).
  - exact (proj1 (X10_legacy_handler unavailable_libs 0 200 0 2 "km") eq_refl).
  - exact (proj1 (proj2 (X10_legacy_handler unavailable_libs 0 0 0 2 "km"))
             eq_refl).
  - exact (proj1 (proj2 (X10_legacy_handler eastbound_libs 0 0 0 2 "km"))
             eq_refl).
Defined.

(** ** Point projection *)

Lemma segment_scan_bound (Sh : Shapely) proj_dist coords i accumulated k frac :
  segment_scan Sh proj_dist coords i accumulated = Some (k, frac) ->
  i <= k /\ k + 2 <= i + length coords.
Proof.
  revert i accumulated.
  induction coords as [|a coords IH]; intros i accumulated; [discriminate|].
  destruct coords as [|b coords]; [discriminate|].
  cbn [segment_scan]. destruct (_ <=? _)%float.
  - intros [= <- _]. simpl. lia.
  - intros H. apply IH in H. simpl in *. lia.
Qed.

Lemma segment_scan_short (Sh : Shapely) proj_dist coords i accumulated :
  length coords < 2 -> segment_scan Sh proj_dist coords i accumulated = None.
Proof.
  destruct coords as [|a [|b coords]]; simpl; [reflexivity..|lia].
Qed.

(** X11: when the projection answers on a route of at least two points, the
    segment index it returns is the index of a segment of the route, between
    0 and [len - 2]; on a shorter route it is the negative [len - 2], with
    fraction 1.  The projected point is the interpolation of the route at
    the projected distance, and the offset is the geodesic distance from the
    point to it. *)
Theorem X11_projection_segment_index (L : Libs) (Sh : Shapely) (point : Coord)
    (route_coords : list Coord) (i : Z) (frac : float) (proj_coords : Coord)
    (distance_km : float) :
  project_point_onto_route L Sh point route_coords
    = Ok (i, frac, proj_coords, distance_km) ->
  (2 <= length route_coords ->
   (0 <= i <= Z.of_nat (length route_coords) - 2)%Z) /\
  (length route_coords < 2 ->
   i = (Z.of_nat (length route_coords) - 2)%Z /\ frac = 1%float) /\
  exists proj_dist,
    line_project Sh route_coords point = Ok proj_dist /\
    line_interpolate Sh route_coords proj_dist = Ok proj_coords /\
    distance_km =
      geodesic_kilometers L (point.2, point.1) (proj_coords.2, proj_coords.1).
Proof.
  unfold project_point_onto_route. intros H.
  apply bind_ok in H as (proj_dist & Hproj & H).
  apply bind_ok in H as (pc & Hint & H).
  destruct (segment_scan Sh proj_dist route_coords 0 0%float)
    as [[k fr]|] eqn:Hscan.
  - injection H as <- <- <- <-.
    pose proof (segment_scan_bound _ _ _ _ _ _ _ Hscan) as Hb.
    split; [lia|]. split; [|eauto].
    intros Hshort. rewrite segment_scan_short in Hscan by exact Hshort.
    discriminate.
  - injection H as <- <- <- <-.
    split; [lia|]. split; [auto|eauto].
Qed.

Lemma X11_projection_segment_index_witness :
  project_point_onto_route eastbound_libs axis_shapely (1.2, 0.3)%float
    eastbound_route
  = Ok (2%Z, 0.39999999999999991%float, (1.2, 0)%float,
        geodesic_kilometers eastbound_libs (0.3, 1.2)%float (0, 1.2)%float) /\
  (2 <= length eastbound_route ->
   (0 <= 2 <= Z.of_nat (length eastbound_route) - 2)%Z).
Proof.
  assert (project_point_onto_route eastbound_libs axis_shapely
            (1.2, 0.3)%float eastbound_route
          = Ok (2%Z, 0.39999999999999991%float, (1.2, 0)%float,
                geodesic_kilometers eastbound_libs (0.3, 1.2)%float
                  (0, 1.2)%float)) as H
    by (vm_compute; reflexivity).
  split; [exact H|].
  exact (proj1 (X11_projection_segment_index eastbound_libs axis_shapely _ _
                  _ _ _ _ H)).
Defined.

(** ** Removing duplicates, again *)

Lemma no_dups_junction filtered c rest p :
  no_consecutive_duplicates (filtered ++ c :: rest) ->
  last filtered = Some p -> coord_eqb p c = false.
Proof.
  intros H Hp. rewrite last_lookup in Hp.
  assert (filtered <> []) as Hne by (intros ->; discriminate).
  assert (0 < length filtered) as Hlen
    by (destruct filtered; [done|simpl; lia]).
  apply (H (pred (length filtered))).
  - rewrite lookup_app_l by lia. exact Hp.
  - replace (S (pred (length filtered))) with (length filtered) by lia.
    now rewrite list_lookup_middle.
Qed.

Lemma dedup_fold_keeps_all rest filtered :
  filtered <> [] ->
  no_consecutive_duplicates (filtered ++ rest) ->
  fold_left dedup_step rest filtered = filtered ++ rest.
Proof.
  revert filtered. induction rest as [|c rest IH]; intros filtered Hne H; simpl.
  - now rewrite app_nil_r.
  - assert (dedup_step filtered c = filtered ++ [c]) as ->.
    { unfold dedup_step, coord_neqb.
      destruct (last filtered) as [p|] eqn:Hp;
        [|now apply last_None in Hp].
      rewrite coord_eqb_comm, (no_dups_junction _ _ _ _ H Hp). reflexivity. }
    rewrite IH.
    + now rewrite <- app_assoc.
    + now destruct filtered.
    + now rewrite <- app_assoc.
Qed.

Lemma dedup_fold_sublist rest filtered :
  fold_left dedup_step rest filtered `sublist_of` filtered ++ rest.
Proof.
  revert filtered. induction rest as [|c rest IH]; intros filtered; simpl.
  - now rewrite app_nil_r.
  - etransitivity; [apply IH|].
    unfold dedup_step. destruct (last filtered); [|].
    + destruct (coord_neqb c _).
      * now rewrite <- app_assoc.
      * apply sublist_app; [done|]. now apply sublist_cons.
    + apply sublist_app; [done|]. now apply sublist_cons.
Qed.

(** X12: the duplicate removal of the guided builder keeps the coordinates
    in order, dropping some (its output is a sublist of its input); it
    leaves unchanged a sequence that has no two equal consecutive
    coordinates, and so it is idempotent. *)
Theorem X12_duplicate_removal (new_coords filtered_coords : list Coord) :
  remove_consecutive_duplicates new_coords = Ok filtered_coords ->
  filtered_coords `sublist_of` new_coords /\
  (no_consecutive_duplicates new_coords -> filtered_coords = new_coords) /\
  remove_consecutive_duplicates filtered_coords = Ok filtered_coords.
Proof.
  intros H.
  assert (forall l,
            no_consecutive_duplicates l -> l <> [] ->
            remove_consecutive_duplicates l = Ok l) as Hfix.
  { intros [|c0 rest] Hnd Hne; [done|]. unfold remove_consecutive_duplicates.
    now rewrite (dedup_fold_keeps_all rest [c0]). }
  pose proof (remove_consecutive_duplicates_spec _ _ H) as (Hnd & Hhead & _).
  destruct new_coords as [|c0 rest]; [discriminate|].
  injection H as <-.
  split; [apply (dedup_fold_sublist rest [c0])|].
  split.
  - intros Hall. now apply (dedup_fold_keeps_all rest [c0]).
  - apply Hfix; [exact Hnd|]. intros He. rewrite He in Hhead. discriminate.
Qed.

Lemma X12_duplicate_removal_witness :
  remove_consecutive_duplicates
    [(0, 0); (1, 0); (1, 0); (2, 0); (2, 0)]%float
  = Ok [(0, 0); (1, 0); (2, 0)]%float /\
  [(0, 0); (1, 0); (2, 0)]%float
    `sublist_of` [(0, 0); (1, 0); (1, 0); (2, 0); (2, 0)]%float /\
  remove_consecutive_duplicates [(0, 0); (1, 0); (2, 0)]%float
  = Ok [(0, 0); (1, 0); (2, 0)]%float.
Proof.
  assert (remove_consecutive_duplicates
            [(0, 0); (1, 0); (1, 0); (2, 0); (2, 0)]%float
          = Ok [(0, 0); (1, 0); (2, 0)]%float) as H by reflexivity.
  destruct (X12_duplicate_removal _ _ H) as (Hs & _ & Hi).
  split; [exact H|]. split; [exact Hs|exact Hi].
Defined.

(** ** The offset retry *)

(** X13: the offset retry never shortens the reference route.  A route of
    more than 2 points is kept as it is without a second call; otherwise
    the route changes only to the answer of the pathfinder for the end
    points moved by 0.1 degree (start up, destination down), and only when
    that answer has more than 2 points. *)
Theorem X13_retry_reference (L : Libs) (ship destination : Coord)
    (units : string) (reference_coords : list Coord) :
  let retried :=
    retry_reference L ship destination units reference_coords in
  length reference_coords <= length retried /\
  (2 < length reference_coords -> retried = reference_coords) /\
  (retried <> reference_coords ->
   2 < length retried /\
   exists alt_feature,
     searoute L (ship.1 + 0.1, ship.2 + 0.1)%float
       (destination.1 - 0.1, destination.2 - 0.1)%float units
       = Ok alt_feature /\
     retried = coordinates (geometry alt_feature)).
Proof.
  intros retried. unfold retried, retry_reference.
  destruct (length reference_coords <=? 2) eqn:Hlen.
  - apply Nat.leb_le in Hlen.
    destruct (searoute L _ _ units) as [alt|e].
    + destruct (2 <? length (coordinates (geometry alt))) eqn:Halt.
      * apply Nat.ltb_lt in Halt.
        split; [lia|]. split; [lia|]. intros _. split; [exact Halt|eauto].
      * split; [lia|]. split; [reflexivity|]. intros H. now destruct H.
    + split; [lia|]. split; [reflexivity|]. intros H. now destruct H.
  - split; [lia|]. split; [reflexivity|]. intros H. now destruct H.
Qed.

(** ** Ties go to the earliest candidate *)

Lemma lex3_lt_iff a b :
  lex3 a b = Lt <->
  (a.1.1 < b.1.1 \/
   a.1.1 = b.1.1 /\ (a.1.2 < b.1.2 \/ a.1.2 = b.1.2 /\ a.2 < b.2))%Z.
Proof.
  destruct a as [[a1 a2] a3], b as [[b1 b2] b3]; unfold lex3; simpl.
  destruct (Z.compare_spec a1 b1), (Z.compare_spec a2 b2),
    (Z.compare_spec a3 b3); split; intros E; try discriminate;
    try reflexivity; lia.
Qed.

Lemma lex3_gt_iff a b : lex3 a b = Gt <-> lex3 b a = Lt.
Proof.
  rewrite lex3_lt_iff.
  destruct a as [[a1 a2] a3], b as [[b1 b2] b3]; unfold lex3; simpl.
  destruct (Z.compare_spec a1 b1), (Z.compare_spec a2 b2),
    (Z.compare_spec a3 b3); split; intros E; try discriminate;
    try reflexivity; lia.
Qed.

Lemma float_leb_key x y :
  (x <=? y)%float = true <->
  exists a b, float_key (Prim2SF x) = Some a /\ float_key (Prim2SF y) = Some b /\
              lex3 b a <> Lt.
Proof.
  rewrite FloatAxioms.leb_spec. unfold SFleb. rewrite SFcompare_key.
  destruct (float_key (Prim2SF x)) as [a|], (float_key (Prim2SF y)) as [b|].
  - destruct (lex3 a b) eqn:E.
    + apply lex3_eq in E as ->. split; [|done]. intros _. exists b, b.
      rewrite lex3_refl. repeat split; discriminate.
    + split; [|done]. intros _. exists a, b. repeat split.
      intros E'. apply lex3_gt_iff in E'. congruence.
    + split; [discriminate|]. intros (c & d & [= <-] & [= <-] & Hn).
      apply lex3_gt_iff in E. contradiction.
  - split; [discriminate|]. intros (c & d & _ & [=] & _).
  - split; [discriminate|]. intros (c & d & [=] & _).
  - split; [discriminate|]. intros (c & d & [=] & _).
Qed.

Lemma float_leb_ltb_trans x y z :
  (x <=? y)%float = true -> (y <? z)%float = true -> (x <? z)%float = true.
Proof.
  rewrite float_leb_key, !float_ltb_key.
  intros (a & b & Ha & Hb & Hab) (b' & c & Hb' & Hc & Hbc).
  assert (b' = b) as -> by congruence.
  exists a, c. repeat split; try assumption.
  rewrite lex3_lt_iff in *. lia.
Qed.

Lemma float_ltb_not_leb x y :
  (x <? y)%float = true -> (y <=? x)%float = false.
Proof.
  intros H. destruct (y <=? x)%float eqn:E; [|reflexivity].
  pose proof (float_leb_ltb_trans _ _ _ E H) as Hyy.
  rewrite float_ltb_irrefl in Hyy. discriminate.
Qed.

Section ArgMinFirst.

Context {S : Type} (val : S -> float) (f : Coord -> float)
  (skip : Coord -> bool) (pick : nat -> Coord -> S)
  (body : S -> nat -> Coord -> S).

Hypothesis val_pick : forall i x, val (pick i x) = f x.

Hypothesis body_spec : forall st i x,
  body st i x =
    if skip x then st
    else if (f x <? val st)%float then pick i x else st.

(** The state after the loop is the initial one, or was picked at an item
    that beats the initial value and every earlier item. *)
Lemma argmin_first items i st :
  for_enumerate body items i st = st \/
  exists k x,
    items !! k = Some x /\ skip x = false /\
    for_enumerate body items i st = pick (i + k) x /\
    (f x <? val st)%float = true /\
    forall j y,
      j < k -> items !! j = Some y -> skip y = false ->
      (f y <=? f x)%float = false.
Proof.
  revert i st. induction items as [|x0 items IH]; intros i st; simpl; [auto|].
  destruct (IH (Datatypes.S i) (body st i x0))
    as [->|(k & x & Hk & Hs & -> & Hlt & Hfirst)].
  - rewrite body_spec. destruct (skip x0) eqn:Hx0; [auto|].
    destruct (f x0 <? val st)%float eqn:E; [|auto].
    right. exists 0, x0. rewrite Nat.add_0_r.
    repeat split; try assumption; try reflexivity.
    intros j y Hj. lia.
  - right. exists (Datatypes.S k), x.
    replace (i + Datatypes.S k) with (Datatypes.S i + k) by lia.
    split; [exact Hk|]. split; [exact Hs|]. split; [reflexivity|].
    rewrite body_spec in Hlt.
    destruct (skip x0) eqn:Hx0.
    + split; [exact Hlt|].
      intros [|j] y Hj Hy Hsy; simpl in Hy.
      * injection Hy as <-. congruence.
      * apply (Hfirst j y); [lia|assumption..].
    + destruct (f x0 <? val st)%float eqn:E.
      * rewrite val_pick in Hlt. split; [eapply float_ltb_trans; eauto|].
        intros [|j] y Hj Hy Hsy; simpl in Hy.
        -- injection Hy as <-. now apply float_ltb_not_leb.
        -- apply (Hfirst j y); [lia|assumption..].
      * split; [exact Hlt|].
        intros [|j] y Hj Hy Hsy; simpl in Hy.
        -- injection Hy as <-.
           destruct (f x0 <=? f x)%float eqn:E'; [|reflexivity].
           pose proof (float_leb_ltb_trans _ _ _ E' Hlt). congruence.
        -- apply (Hfirst j y); [lia|assumption..].
Qed.

End ArgMinFirst.

(** X14: ties go to the earliest candidate.  Every point of the reference
    route before [closest_index] is strictly farther from the start than the
    point at [closest_index] (or at a NaN distance); and when the merge
    point returned is within the bound with a score below infinity (the scan
    kept it), every candidate within the bound scanned before it has a
    strictly higher score (or a NaN score). *)
Theorem X14_earliest_minimum (L : Libs) (ship : Coord)
    (reference_route : list Coord) (max_deviation_km : float)
    (route_end : Coord) (idx : nat) (pt : Coord) :
  let dist := fun p : Coord =>
    geodesic_kilometers L (ship.2, ship.1) (p.2, p.1) in
  last reference_route = Some route_end ->
  find_optimal_merge_point L ship reference_route max_deviation_km
    = Ok (idx, pt) ->
  (forall q j p,
     reference_route !! closest_index L ship reference_route = Some q ->
     j < closest_index L ship reference_route ->
     reference_route !! j = Some p ->
     (dist p <=? dist q)%float = false) /\
  ((max_deviation_km <? dist pt)%float = false ->
   (merge_score L ship route_end pt <? infinity)%float = true ->
   forall j p,
     closest_index L ship reference_route <= j < idx ->
     reference_route !! j = Some p ->
     (max_deviation_km <? dist p)%float = false ->
     (merge_score L ship route_end p <=? merge_score L ship route_end pt)%float
       = false).
Proof.
  intros dist Hlast Hfind. split.
  - intros q j p Hq Hj Hp. unfold closest_index in Hq, Hj.
    destruct (argmin_first fst dist (fun _ => false) (fun i x => (dist x, i))
                (closest_step L ship) (fun _ _ => eq_refl)
                (closest_step_spec L ship) reference_route 0 (infinity, 0))
      as [E|(k & x & Hk & _ & E & _ & Hfirst)];
      rewrite E in Hq, Hj; simpl in Hq, Hj; [lia|].
    assert (x = q) as -> by congruence.
    now apply (Hfirst j p).
  - intros Hfar Hfinite j p Hj Hp Hpfar.
    unfold find_optimal_merge_point in Hfind. rewrite Hlast in Hfind.
    set (c := closest_index L ship reference_route) in *.
    destruct (argmin_first fst (merge_score L ship route_end)
                (too_far L ship max_deviation_km)
                (fun i x => (merge_score L ship route_end x, Some (i, x)))
                (merge_step L ship route_end max_deviation_km)
                (fun _ _ => eq_refl)
                (merge_step_spec L ship route_end max_deviation_km)
                (drop c reference_route) c (infinity, None))
      as [E|(k & x & Hk & _ & E & _ & Hfirst)]; rewrite E in Hfind;
      simpl in Hfind.
    + (* the scan kept nothing: a candidate within the bound with a score
         below infinity would have been kept *)
      exfalso.
      pose proof (argmin_minimal fst (merge_score L ship route_end)
                    (too_far L ship max_deviation_km)
                    (fun i x => (merge_score L ship route_end x, Some (i, x)))
                    (merge_step L ship route_end max_deviation_km)
                    (fun _ _ => eq_refl)
                    (merge_step_spec L ship route_end max_deviation_km)
                    (drop c reference_route) c (infinity, None)) as Hmin.
      rewrite E in Hmin. simpl in Hmin.
      destruct (reference_route !! forward_index c (length reference_route))
        as [q|] eqn:Hq; [|discriminate].
      injection Hfind as Hidx Hpt. subst idx pt.
      assert (reference_route <> []) as Hne by (intros ->; discriminate).
      pose proof (closest_index_lt L ship reference_route Hne) as Hc.
      fold c in Hc.
      assert (c <= forward_index c (length reference_route)) as Hge
        by (unfold forward_index; lia).
      specialize (Hmin (forward_index c (length reference_route) - c) q).
      rewrite lookup_drop in Hmin.
      replace (c + (forward_index c (length reference_route) - c))
        with (forward_index c (length reference_route)) in Hmin by lia.
      specialize (Hmin Hq Hfar). congruence.
    + injection Hfind as Hidx Hpt. subst idx pt.
      apply (Hfirst (j - c) p); [lia| |exact Hpfar].
      rewrite lookup_drop. now replace (c + (j - c)) with j by lia.
Qed.

Lemma X14_earliest_minimum_witness :
  find_optimal_merge_point no_path_libs (0, 0)%float detour_route 200
  = Ok (2, (1, 0)%float) /\
  closest_index no_path_libs (0, 0)%float detour_route = 1 /\
  (forall q j p,
     detour_route !! closest_index no_path_libs (0, 0)%float detour_route
       = Some q ->
     j < closest_index no_path_libs (0, 0)%float detour_route ->
     detour_route !! j = Some p ->
     (geodesic_kilometers no_path_libs (0, 0)%float (p.2, p.1)
      <=? geodesic_kilometers no_path_libs (0, 0)%float (q.2, q.1))%float
     = false) /\
  forall j p,
    closest_index no_path_libs (0, 0)%float detour_route <= j < 2 ->
    detour_route !! j = Some p ->
    (200 <? geodesic_kilometers no_path_libs (0, 0)%float (p.2, p.1))%float
      = false ->
    (merge_score no_path_libs (0, 0)%float (1, 0)%float p
     <=? merge_score no_path_libs (0, 0)%float (1, 0)%float (1, 0)%float)%float
    = false.
Proof.
  assert (find_optimal_merge_point no_path_libs (0, 0)%float detour_route 200
          = Ok (2, (1, 0)%float)) as Hfind by (vm_compute; reflexivity).
  destruct (X14_earliest_minimum no_path_libs (0, 0)%float detour_route
              200%float (1, 0)%float 2 (1, 0)%float eq_refl Hfind)
    as [H1 H2].
  split; [exact Hfind|]. split; [vm_compute; reflexivity|].
  split; [exact H1|]. apply H2; vm_compute; reflexivity.
Defined.

End Extras.
